(** * Dynamic form generator: the [Form] component of
      [my-project/src/Components/Form.tsx]

    The component keeps seven [useState] cells, re-parses the schema text in
    a [useEffect] whenever the text changes, validates one field on every
    change of its value and all fields on submit.

    The embedding is shallow: the state cells are a record, the handlers are
    computations in a small monad that threads the cells, collects the
    observable effects (the timer and the console line) and propagates
    JavaScript exceptions.  State setters are applied to the threaded store in
    program order, which is the order in which React processes the update
    queue; reads go through [snapshot], the values captured by the render
    whose handler is running.

    What belongs to the JavaScript host and not to the component
    ([JSON.parse], [RegExp], the message of the [TypeError] raised by a
    property read on [null], and the unchecked type assertion
    [as FormSchema]) is a parameter of the development, collected in the
    class [Platform]; a reference instance on a fragment of JSON and of the
    regular expression syntax is given to run the model on concrete texts.

    Modelling conventions:
    - strings are [string]; a character stands for one code unit, so
      [String.length] is the [length] property on texts whose code units
      are below 256;
    - numbers are integer valued and modelled as [Z]; on safe integers
      [Number_toString] is the decimal rendering a template literal gives;
    - plain objects used as dictionaries ([formData], [formErrors],
      [newErrors]) are [gmap string string]; field ids are assumed not to
      name members inherited from [Object.prototype]. *)

From Stdlib Require Import ZArith String Ascii List DecimalString.
From stdpp Require Import base option list gmap strings.

Open Scope string_scope.
Open Scope Z_scope.

(** ** The schema types (lines 18-46) *)

Inductive FieldType := text | number | email | select | textarea | radio.

Module FormOption.
Record t := mk { value : string; label : string }.
End FormOption.
Abbreviation FormOption := FormOption.t.

Module FormValidation.
Record t := mk {
  pattern : option string;
  message : option string;
  min : option Z;
  max : option Z;
  minLength : option Z;
  maxLength : option Z
}.
End FormValidation.
Abbreviation FormValidation := FormValidation.t.

Module FormField.
Record t := mk {
  id : string;
  type : FieldType;
  label : string;
  required : option bool;
  placeholder : option string;
  options : option (list FormOption);
  validation : option FormValidation
}.
End FormField.
Abbreviation FormField := FormField.t.

Module FormSchema.
Record t := mk {
  formTitle : string;
  formDescription : option string;
  fields : list FormField
}.
End FormSchema.
Abbreviation FormSchema := FormSchema.t.

(** ** Values produced by [JSON.parse] *)

#[warnings="-register-all"]
Inductive JSValue :=
| JNull
| JBool (b : bool)
| JNum (n : Z)
| JStr (s : string)
| JArr (elements : list JSValue)
| JObj (members : list (string * JSValue)).

(** Own properties of a parsed object, keys unique, first match. *)
Fixpoint assoc (key : string) (members : list (string * JSValue)) : option JSValue :=
  match members with
  | [] => None
  | (k, v) :: rest => if String.eqb k key then Some v else assoc key rest
  end.

(** ** JavaScript truthiness, per type *)

Class Truthy (A : Type) := truthy : A -> bool.

#[global] Instance Truthy_bool : Truthy bool := fun b => b.
#[global] Instance Truthy_string : Truthy string :=
  fun s => match s with EmptyString => false | String _ _ => true end.
#[global] Instance Truthy_number : Truthy Z := fun n => negb (n =? 0).
#[global] Instance Truthy_JSValue : Truthy JSValue :=
  fun v => match v with
           | JNull => false
           | JBool b => truthy b
           | JNum n => truthy n
           | JStr s => truthy s
           | JArr _ | JObj _ => true
           end.
(** An optional member: [undefined] is falsy. *)
#[global] Instance Truthy_optional {A} `{Truthy A} : Truthy (option A) :=
  fun o => match o with Some a => truthy a | None => false end.

(** [Array.isArray] on the result of a property read. *)
Definition Array_isArray (v : option JSValue) : bool :=
  match v with Some (JArr _) => true | _ => false end.

(** [`${n}`] for an integer valued number. *)
Definition Number_toString (n : Z) : string := NilZero.string_of_int (Z.to_int n).

(** ** [String.prototype.trim] *)

(** White space and line terminators among the code units below 256:
    TAB, LF, VT, FF, CR, SP and NBSP. *)
Definition is_whitespace (c : ascii) : bool :=
  let n := nat_of_ascii c in
  ((9 <=? n) && (n <=? 13) || (n =? 32) || (n =? 160))%nat.

Fixpoint trimStart (s : string) : string :=
  match s with
  | String c rest => if is_whitespace c then trimStart rest else s
  | EmptyString => EmptyString
  end.

Fixpoint trimEnd (s : string) : string :=
  match s with
  | String c rest =>
      match trimEnd rest with
      | EmptyString => if is_whitespace c then EmptyString else String c EmptyString
      | kept => String c kept
      end
  | EmptyString => EmptyString
  end.

Definition trim (s : string) : string := trimEnd (trimStart s).

(** ** Component state (lines 49-55) *)

Record State := mkState {
  jsonInput : string;
  formSchema : option FormSchema;
  jsonError : option string;
  formData : gmap string string;
  formErrors : gmap string string;
  isSubmitted : bool;
  isSubmitting : bool
}.

(** [useState] initial values. *)
Definition initialState : State :=
  mkState "" None None ∅ ∅ false false.

(** ** Exceptions, effects and the handler monad *)

(** A thrown value: an instance of [Error] with its message, or anything
    else. *)
Inductive Thrown :=
| ThrownError (message : string)
| ThrownOther.

Inductive Completion (A : Type) :=
| Normal (a : A)
| Throw (e : Thrown).
Arguments Normal {A} a.
Arguments Throw {A} e.

(** What a run of a handler does besides updating the cells. *)
Inductive Effect :=
| Wait (ms : Z)                                        (* setTimeout(resolve, ms), awaited *)
| ConsoleLog (label : string) (data : gmap string string).

Record Outcome (A : Type) := mkOutcome {
  completion : Completion A;
  store : State;
  trace : list Effect
}.
Arguments mkOutcome {A} completion store trace.
Arguments completion {A} o.
Arguments store {A} o.
Arguments trace {A} o.

Definition M (A : Type) : Type := State -> Outcome A.

Definition ret {A} (a : A) : M A := fun st => mkOutcome (Normal a) st [].

(** Sequencing: the continuation runs on the store the first part left, the
    traces are concatenated, and a throw ends the run with the store and the
    trace reached so far. *)
Definition bind {A B} (m : M A) (k : A -> M B) : M B := fun st =>
  match m st with
  | mkOutcome (Normal a) st1 tr1 =>
      match k a st1 with
      | mkOutcome c st2 tr2 => mkOutcome c st2 (tr1 ++ tr2)
      end
  | mkOutcome (Throw e) st1 tr1 => mkOutcome (Throw e) st1 tr1
  end.

Declare Scope handler_scope.
Delimit Scope handler_scope with handler.
Notation "x <- m ;; k" := (bind m (fun x => k))
  (at level 20, m at level 99, k at level 200, only parsing) : handler_scope.
Notation "m ;; k" := (bind m (fun _ => k))
  (at level 100, k at level 200, right associativity, only parsing) : handler_scope.
Open Scope handler_scope.

Definition throw {A} (e : Thrown) : M A := fun st => mkOutcome (Throw e) st [].

(** [try { body } catch (error) { handler }] *)
Definition try_catch {A} (body : M A) (handler : Thrown -> M A) : M A := fun st =>
  match body st with
  | mkOutcome (Normal a) st1 tr1 => mkOutcome (Normal a) st1 tr1
  | mkOutcome (Throw e) st1 tr1 =>
      match handler e st1 with
      | mkOutcome c st2 tr2 => mkOutcome c st2 (tr1 ++ tr2)
      end
  end.

Definition liftC {A} (c : Completion A) : M A :=
  match c with Normal a => ret a | Throw e => throw e end.

(** The values of the cells in the render whose closure is running. *)
Definition snapshot : M State := fun st => mkOutcome (Normal st) st [].

Definition emit (e : Effect) : M unit := fun st => mkOutcome (Normal tt) st [e].

Definition update (f : State -> State) : M unit := fun st => mkOutcome (Normal tt) (f st) [].

Definition setFormSchema (v : option FormSchema) : M unit :=
  update (fun st => mkState (jsonInput st) v (jsonError st) (formData st)
                      (formErrors st) (isSubmitted st) (isSubmitting st)).
Definition setJsonInput (v : string) : M unit :=
  update (fun st => mkState v (formSchema st) (jsonError st) (formData st)
                      (formErrors st) (isSubmitted st) (isSubmitting st)).
Definition setJsonError (v : option string) : M unit :=
  update (fun st => mkState (jsonInput st) (formSchema st) v (formData st)
                      (formErrors st) (isSubmitted st) (isSubmitting st)).
(** [setFormData] and [setFormErrors] take the updater; a plain value [v] is
    the updater [fun _ => v]. *)
Definition setFormData (f : gmap string string -> gmap string string) : M unit :=
  update (fun st => mkState (jsonInput st) (formSchema st) (jsonError st) (f (formData st))
                      (formErrors st) (isSubmitted st) (isSubmitting st)).
Definition setFormErrors (f : gmap string string -> gmap string string) : M unit :=
  update (fun st => mkState (jsonInput st) (formSchema st) (jsonError st) (formData st)
                      (f (formErrors st)) (isSubmitted st) (isSubmitting st)).
Definition setIsSubmitted (v : bool) : M unit :=
  update (fun st => mkState (jsonInput st) (formSchema st) (jsonError st) (formData st)
                      (formErrors st) v (isSubmitting st)).
Definition setIsSubmitting (v : bool) : M unit :=
  update (fun st => mkState (jsonInput st) (formSchema st) (jsonError st) (formData st)
                      (formErrors st) (isSubmitted st) v).

(** [array.forEach] whose callback updates a local accumulator. *)
Fixpoint forEach {A B} (l : list A) (body : A -> B -> M B) (acc : B) : M B :=
  match l with
  | [] => ret acc
  | x :: rest => acc' <- body x acc ;; forEach rest body acc'
  end.

(** ** The host *)

Class Platform := {
  (** [JSON.parse]: the value, or the message of the [SyntaxError]. *)
  JSON_parse : string -> JSValue + string;
  JSON_parse_message : forall s m, JSON_parse s = inr m -> m <> "";
  (** Message of the [TypeError] for reading the named property of [null]. *)
  TypeError_null_read : string -> string;
  (** [new RegExp(pattern).test(value)]: the verdict, or the message of the
      [SyntaxError] the constructor throws on an ill-formed pattern. *)
  RegExp_test : string -> string -> bool + string;
  (** The empty pattern is [/(?:)/] and matches every string. *)
  RegExp_empty_pattern : forall value, RegExp_test "" value = inl true;
  (** The type assertion [as FormSchema]: how the typed code reads the
      parsed value. *)
  as_FormSchema : JSValue -> FormSchema
}.

(** ** The component *)

Section Form.
Context `{host : Platform}.

(** Reading the member [key] of the value [JSON.parse] returned.  On [null]
    the read throws a [TypeError].  Booleans, numbers, strings and arrays
    have no member under the two names read here ([formTitle] and
    [fields]), and a parsed object has none but its own. *)
Definition getMember (parsed : JSValue) (key : string) : Completion (option JSValue) :=
  match parsed with
  | JNull => Throw (ThrownError (TypeError_null_read key))
  | JObj members => Normal (assoc key members)
  | JBool _ | JNum _ | JStr _ | JArr _ => Normal None
  end.

Definition invalidSchemaFormat : string :=
  "Invalid schema format. Must include " ++ String "034" "formTitle" ++ String "034" " and "
    ++ String "034" "fields" ++ String "034" " array.".

(** [!parsed.formTitle || !Array.isArray(parsed.fields)] (line 66). *)
Definition malformed (parsed : JSValue) : Completion bool :=
  match getMember parsed "formTitle" with
  | Throw e => Throw e
  | Normal formTitle =>
      if negb (truthy formTitle) then Normal true
      else match getMember parsed "fields" with
           | Throw e => Throw e
           | Normal fields => Normal (negb (Array_isArray fields))
           end
  end.

(** The effect that depends on [jsonInput] (lines 57-76). *)
Definition useEffect_jsonInput : M unit :=
  render <- snapshot ;;
  try_catch
    (if negb (truthy (trim (jsonInput render))) then
       setFormSchema None ;;
       setJsonError None
     else
       parsed <- liftC (match JSON_parse (jsonInput render) with
                        | inl v => Normal v
                        | inr msg => Throw (ThrownError msg)
                        end) ;;
       bad <- liftC (malformed parsed) ;;
       if bad then throw (ThrownError invalidSchemaFormat)
       else
         setFormSchema (Some (as_FormSchema parsed)) ;;
         setJsonError None)
    (fun error =>
       setJsonError (Some (match error with
                           | ThrownError message => message
                           | ThrownOther => "Invalid JSON"
                           end)) ;;
       setFormSchema None).

(** The editor's [onChange] (line 144) followed by the effect it triggers. *)
Definition editSchemaText (newText : string) : M unit :=
  setJsonInput newText ;;
  useEffect_jsonInput.

(** [formSchema?.fields.find((f) => f.id === id)] (line 84). *)
Definition findField (schema : option FormSchema) (id : string) : option FormField :=
  match schema with
  | Some s => List.find (fun f => String.eqb (FormField.id f) id) (FormSchema.fields s)
  | None => None
  end.

(** Lines 92-94: the pattern rule, writing over [error]. *)
Definition checkPattern (validation : FormValidation) (value error : string)
  : Completion string :=
  match FormValidation.pattern validation with
  | Some pattern =>
      if truthy pattern then
        match RegExp_test pattern value with
        | inl matched =>
            if negb matched then
              Normal (match FormValidation.message validation with
                      | Some message => if truthy message then message else "Invalid format"
                      | None => "Invalid format"
                      end)
            else Normal error
        | inr msg => Throw (ThrownError msg)
        end
      else Normal error
  | None => Normal error
  end.

(** Lines 95-97. *)
Definition checkMinLength (validation : FormValidation) (value error : string) : string :=
  match FormValidation.minLength validation with
  | Some minLength =>
      if truthy minLength && (Z.of_nat (String.length value) <? minLength)
      then "Minimum length is " ++ Number_toString minLength
      else error
  | None => error
  end.

(** Lines 98-100. *)
Definition checkMaxLength (validation : FormValidation) (value error : string) : string :=
  match FormValidation.maxLength validation with
  | Some maxLength =>
      if truthy maxLength && (maxLength <? Z.of_nat (String.length value))
      then "Maximum length is " ++ Number_toString maxLength
      else error
  | None => error
  end.

(** Lines 87-101: the value of [error] when line 103 is reached. *)
Definition fieldError (field : FormField) (value : string) : Completion string :=
  let error := "" in
  if truthy (FormField.required field) && negb (truthy value) then
    Normal "This field is required"
  else
    match FormField.validation field with
    | Some validation =>
        match checkPattern validation value error with
        | Normal error => Normal (checkMaxLength validation value
                                    (checkMinLength validation value error))
        | Throw e => Throw e
        end
    | None => Normal error
    end.

(** Lines 83-107. *)
Definition validateField (id value : string) : M unit :=
  render <- snapshot ;;
  match findField (formSchema render) id with
  | None => ret tt
  | Some field =>
      error <- liftC (fieldError field value) ;;
      setFormErrors (fun prev => <[id := error]> prev)
  end.

(** Lines 78-81. *)
Definition handleInputChange (id value : string) : M unit :=
  setFormData (fun prev => <[id := value]> prev) ;;
  validateField id value.

(** [formData[field.id] || ''] *)
Definition valueOf (data : gmap string string) (id : string) : string :=
  match data !! id with
  | Some v => if truthy v then v else ""
  | None => ""
  end.

(** [formSchema?.fields]: the fields to iterate, none without a schema. *)
Definition schemaFields (schema : option FormSchema) : list FormField :=
  match schema with
  | Some s => FormSchema.fields s
  | None => []
  end.

(** The callback of [forEach] (lines 114-120); [newErrors] is the local
    object it fills. *)
Definition submitCallback (render : State) (field : FormField)
    (newErrors : gmap string string) : M (gmap string string) :=
  let value := valueOf (formData render) (FormField.id field) in
  validateField (FormField.id field) value ;;
  ret (if truthy (FormField.required field) && negb (truthy value)
       then <[FormField.id field := "This field is required"]> newErrors
       else newErrors).

(** Lines 109-131.  The awaited timer is the effect [Wait]; the handler is
    run to its end, without other events in between. *)
Definition handleSubmit : M unit :=
  render <- snapshot ;;
  setIsSubmitting true ;;
  newErrors <- forEach (schemaFields (formSchema render)) (submitCallback render) ∅ ;;
  (if (size newErrors =? 0)%nat then
     emit (Wait 1000) ;;
     emit (ConsoleLog "Form submitted:" (formData render)) ;;
     setIsSubmitted true
   else
     setFormErrors (fun _ => newErrors)) ;;
  setIsSubmitting false.

End Form.

(** ** A reference host

    [JSON.parse] on the fragment of JSON without fractions, exponents and
    [\u] escapes, and [RegExp] on patterns made of an optional [^], single
    character atoms (a literal, [.], a class, [\d], [\w], [\s]) with the
    quantifiers [*], [+], [?], [{n}], [{n,}], [{n,m}], and an optional final
    [$].  Texts outside the fragments are reported as syntax errors. *)

Module Reference.

Local Open Scope char_scope.
Local Open Scope nat_scope.

Definition quote : ascii := "034".

Inductive token :=
| TLBrace | TRBrace | TLBracket | TRBracket | TColon | TComma
| TString (s : string) | TNumber (n : Z) | TTrue | TFalse | TNull.

Definition is_digit (c : ascii) : bool :=
  (48 <=? nat_of_ascii c) && (nat_of_ascii c <=? 57).

Definition digit_value (c : ascii) : Z := Z.of_nat (nat_of_ascii c - 48).

Definition unescape (c : ascii) : option ascii :=
  if Ascii.eqb c quote then Some quote
  else if Ascii.eqb c "\" then Some "\"
  else if Ascii.eqb c "/" then Some "/"
  else if Ascii.eqb c "b" then Some "008"
  else if Ascii.eqb c "f" then Some "012"
  else if Ascii.eqb c "n" then Some "010"
  else if Ascii.eqb c "r" then Some "013"
  else if Ascii.eqb c "t" then Some "009"
  else None.

(** The characters of a string literal after its opening quote, and what
    follows the closing quote. *)
Fixpoint lex_string (s : string) : option (string * string) :=
  match s with
  | EmptyString => None
  | String c rest =>
      if Ascii.eqb c quote then Some (EmptyString, rest)
      else if Ascii.eqb c "\" then
        match rest with
        | String e rest' =>
            match unescape e, lex_string rest' with
            | Some ch, Some (body, after) => Some (String ch body, after)
            | _, _ => None
            end
        | EmptyString => None
        end
      else if nat_of_ascii c <? 32 then None
      else match lex_string rest with
           | Some (body, after) => Some (String c body, after)
           | None => None
           end
  end.

Fixpoint lex_digits (s : string) (acc : Z) : Z * string :=
  match s with
  | String c rest => if is_digit c then lex_digits rest (10 * acc + digit_value c)%Z else (acc, s)
  | EmptyString => (acc, s)
  end.

(** An integer literal without sign: [0], or digits not starting with [0];
    a fraction or an exponent after it is outside the fragment. *)
Definition lex_int (s : string) : option (Z * string) :=
  match s with
  | String c rest =>
      if is_digit c then
        let '(n, after) := if Ascii.eqb c "0" then (0%Z, rest) else lex_digits s 0 in
        match after with
        | String d _ =>
            if is_digit d || Ascii.eqb d "." || Ascii.eqb d "e" || Ascii.eqb d "E"
            then None else Some (n, after)
        | EmptyString => Some (n, after)
        end
      else None
  | EmptyString => None
  end.

Definition drop_string (n : nat) (s : string) : string :=
  String.substring n (String.length s - n) s.

Fixpoint tokenize (fuel : nat) (s : string) : option (list token) :=
  match fuel with
  | O => None
  | S fuel =>
      let continue (t : token) (rest : string) :=
        match tokenize fuel rest with Some ts => Some (t :: ts) | None => None end in
      match s with
      | EmptyString => Some nil
      | String c rest =>
          if Ascii.eqb c " " || Ascii.eqb c "009" || Ascii.eqb c "010" || Ascii.eqb c "013"
          then tokenize fuel rest
          else if Ascii.eqb c "{" then continue TLBrace rest
          else if Ascii.eqb c "}" then continue TRBrace rest
          else if Ascii.eqb c "[" then continue TLBracket rest
          else if Ascii.eqb c "]" then continue TRBracket rest
          else if Ascii.eqb c ":" then continue TColon rest
          else if Ascii.eqb c "," then continue TComma rest
          else if Ascii.eqb c quote then
            match lex_string rest with
            | Some (body, after) => continue (TString body) after
            | None => None
            end
          else if Ascii.eqb c "-" then
            match lex_int rest with
            | Some (n, after) => continue (TNumber (- n)%Z) after
            | None => None
            end
          else if is_digit c then
            match lex_int s with
            | Some (n, after) => continue (TNumber n) after
            | None => None
            end
          else if String.prefix "true" s then continue TTrue (drop_string 4 s)
          else if String.prefix "false" s then continue TFalse (drop_string 5 s)
          else if String.prefix "null" s then continue TNull (drop_string 4 s)
          else None
      end
  end.

(** [members[key] = v] on an object under construction: a repeated key keeps
    its place and takes the later value. *)
Fixpoint obj_set (key : string) (v : JSValue) (members : list (string * JSValue))
  : list (string * JSValue) :=
  match members with
  | nil => (key, v) :: nil
  | (k, w) :: rest => if String.eqb k key then (k, v) :: rest else (k, w) :: obj_set key v rest
  end.

Fixpoint parse_value (fuel : nat) (ts : list token) : option (JSValue * list token) :=
  match fuel with
  | O => None
  | S fuel =>
      match ts with
      | TNull :: rest => Some (JNull, rest)
      | TTrue :: rest => Some (JBool true, rest)
      | TFalse :: rest => Some (JBool false, rest)
      | TNumber n :: rest => Some (JNum n, rest)
      | TString s :: rest => Some (JStr s, rest)
      | TLBracket :: TRBracket :: rest => Some (JArr nil, rest)
      | TLBracket :: rest => parse_elements fuel rest nil
      | TLBrace :: TRBrace :: rest => Some (JObj nil, rest)
      | TLBrace :: rest => parse_members fuel rest nil
      | _ => None
      end
  end
with parse_elements (fuel : nat) (ts : list token) (acc : list JSValue)
  : option (JSValue * list token) :=
  match fuel with
  | O => None
  | S fuel =>
      match parse_value fuel ts with
      | Some (v, TComma :: rest) => parse_elements fuel rest (acc ++ v :: nil)
      | Some (v, TRBracket :: rest) => Some (JArr (acc ++ v :: nil), rest)
      | _ => None
      end
  end
with parse_members (fuel : nat) (ts : list token) (acc : list (string * JSValue))
  : option (JSValue * list token) :=
  match fuel with
  | O => None
  | S fuel =>
      match ts with
      | TString key :: TColon :: rest =>
          match parse_value fuel rest with
          | Some (v, TComma :: rest') => parse_members fuel rest' (obj_set key v acc)
          | Some (v, TRBrace :: rest') => Some (JObj (obj_set key v acc), rest')
          | _ => None
          end
      | _ => None
      end
  end.

Definition JSON_parse (s : string) : JSValue + string :=
  match tokenize (S (String.length s)) s with
  | Some ts =>
      match parse_value (S (List.length ts)) ts with
      | Some (v, nil) => inl v
      | _ => inr "Unexpected token in JSON"%string
      end
  | None => inr "Unexpected token in JSON"%string
  end.

(** *** Regular expressions *)

(** An atom with its quantifier: at least [lo], at most [hi] repetitions. *)
Record item := mkItem { accepts : ascii -> bool; lo : nat; hi : option nat }.

Record regex := mkRegex { anchoredStart : bool; items : list item; anchoredEnd : bool }.

Definition is_word (c : ascii) : bool :=
  let n := nat_of_ascii c in
  is_digit c || ((65 <=? n) && (n <=? 90)) || ((97 <=? n) && (n <=? 122)) || (n =? 95).

Definition is_syntax_char (c : ascii) : bool :=
  existsb (Ascii.eqb c) ("^" :: "$" :: "\" :: "." :: "*" :: "+" :: "?" :: "(" :: ")"
                          :: "[" :: "]" :: "{" :: "}" :: "|" :: "/" :: "-" :: nil).

(** The character set after a backslash. *)
Definition escape (c : ascii) : option (ascii -> bool) :=
  if Ascii.eqb c "d" then Some is_digit
  else if Ascii.eqb c "w" then Some is_word
  else if Ascii.eqb c "s" then Some is_whitespace
  else if is_syntax_char c then Some (Ascii.eqb c)
  else None.

Definition in_range (a b c : ascii) : bool :=
  (nat_of_ascii a <=? nat_of_ascii c) && (nat_of_ascii c <=? nat_of_ascii b).

(** The members of a class after its opening bracket. *)
Fixpoint parse_class (s : list ascii) (acc : ascii -> bool)
  : option ((ascii -> bool) * list ascii) :=
  let add (p : ascii -> bool) := fun c => acc c || p c in
  match s with
  | nil => None
  | c :: rest =>
      if Ascii.eqb c "]" then Some (acc, rest)
      else if Ascii.eqb c "\" then
        match rest with
        | e :: rest' =>
            match escape e with
            | Some p => parse_class rest' (add p)
            | None => None
            end
        | nil => None
        end
      else
        match rest with
        | d :: b :: rest' =>
            if Ascii.eqb d "-" && negb (Ascii.eqb b "]") && negb (Ascii.eqb b "\")
            then if nat_of_ascii c <=? nat_of_ascii b
                 then parse_class rest' (add (in_range c b)) else None
            else parse_class rest (add (Ascii.eqb c))
        | _ => parse_class rest (add (Ascii.eqb c))
        end
  end.

Fixpoint parse_nat (s : list ascii) (acc : nat) : nat * list ascii :=
  match s with
  | c :: rest => if is_digit c then parse_nat rest (10 * acc + (nat_of_ascii c - 48)) else (acc, s)
  | nil => (acc, s)
  end.

Definition starts_with_digit (s : list ascii) : bool :=
  match s with c :: _ => is_digit c | nil => false end.

(** The quantifier that follows an atom, if any. *)
Definition parse_quantifier (s : list ascii) : option (nat * option nat * list ascii) :=
  match s with
  | c :: rest =>
      if Ascii.eqb c "*" then Some (0, None, rest)
      else if Ascii.eqb c "+" then Some (1, None, rest)
      else if Ascii.eqb c "?" then Some (0, Some 1, rest)
      else if Ascii.eqb c "{" then
        if starts_with_digit rest then
          let '(n, after) := parse_nat rest 0 in
          match after with
          | d :: after' =>
              if Ascii.eqb d "}" then Some (n, Some n, after')
              else if Ascii.eqb d "," then
                match after' with
                | e :: after'' =>
                    if Ascii.eqb e "}" then Some (n, None, after'')
                    else if is_digit e then
                      let '(m, tail) := parse_nat after' 0 in
                      match tail with
                      | f :: tail' =>
                          if Ascii.eqb f "}" && (n <=? m) then Some (n, Some m, tail') else None
                      | nil => None
                      end
                    else None
                | nil => None
                end
              else None
          | nil => None
          end
        else None
      else Some (1, Some 1, s)
  | nil => Some (1, Some 1, s)
  end.

Definition parse_atom (s : list ascii) : option ((ascii -> bool) * list ascii) :=
  match s with
  | c :: rest =>
      if Ascii.eqb c "." then Some (fun x => negb (Ascii.eqb x "010" || Ascii.eqb x "013"), rest)
      else if Ascii.eqb c "[" then
        match rest with
        | n :: rest' =>
            if Ascii.eqb n "^" then
              match parse_class rest' (fun _ => false) with
              | Some (p, after) => Some (fun x => negb (p x), after)
              | None => None
              end
            else parse_class rest (fun _ => false)
        | nil => None
        end
      else if Ascii.eqb c "\" then
        match rest with
        | e :: rest' => match escape e with Some p => Some (p, rest') | None => None end
        | nil => None
        end
      else if is_syntax_char c && negb (Ascii.eqb c "/") && negb (Ascii.eqb c "-") then None
      else Some (Ascii.eqb c, rest)
  | nil => None
  end.

Fixpoint parse_items (fuel : nat) (s : list ascii) : option (list item * bool) :=
  match fuel with
  | O => None
  | S fuel =>
      match s with
      | nil => Some (nil, false)
      | c :: rest =>
          if Ascii.eqb c "$" && match rest with nil => true | _ => false end
          then Some (nil, true)
          else
            match parse_atom s with
            | Some (p, after) =>
                match parse_quantifier after with
                | Some (l, h, after') =>
                    match parse_items fuel after' with
                    | Some (its, e) => Some (mkItem p l h :: its, e)
                    | None => None
                    end
                | None => None
                end
            | None => None
            end
      end
  end.

Definition parse_regex (pattern : string) : option regex :=
  let s := list_ascii_of_string pattern in
  let '(start, body) :=
    match s with
    | c :: rest => if Ascii.eqb c "^" then (true, rest) else (false, s)
    | nil => (false, s)
    end in
  match parse_items (S (List.length body)) body with
  | Some (its, e) => Some (mkRegex start its e)
  | None => None
  end.

Definition may_repeat (h : option nat) : bool :=
  match h with Some O => false | _ => true end.

(** Does a prefix of [s] match the items (all of [s] when anchored at the
    end)? *)
Fixpoint match_items (atEnd : bool) (its : list item) : list ascii -> bool :=
  match its with
  | nil => fun s => if atEnd then match s with nil => true | _ => false end else true
  | it :: rest =>
      let continue := match_items atEnd rest in
      fun s =>
        (fix repeat (s : list ascii) (l : nat) (h : option nat) {struct s} : bool :=
           ((l =? 0) && continue s)
           || match s with
              | c :: s' =>
                  may_repeat h && accepts it c && repeat s' (Nat.pred l) (option_map Nat.pred h)
              | nil => false
              end) s (lo it) (hi it)
  end.

Fixpoint search (m : list ascii -> bool) (s : list ascii) : bool :=
  m s || match s with _ :: s' => search m s' | nil => false end.

Definition RegExp_test (pattern value : string) : bool + string :=
  match parse_regex pattern with
  | Some r =>
      let m := match_items (anchoredEnd r) (items r) in
      let s := list_ascii_of_string value in
      inl (if anchoredStart r then m s else search m s)
  | None => inr "Invalid regular expression"%string
  end.

(** *** Reading a parsed value at the declared types *)

Definition as_string (v : option JSValue) : option string :=
  match v with Some (JStr s) => Some s | _ => None end.
Definition as_number (v : option JSValue) : option Z :=
  match v with Some (JNum n) => Some n | _ => None end.
Definition as_boolean (v : option JSValue) : option bool :=
  match v with Some (JBool b) => Some b | _ => None end.
Definition members_of (v : JSValue) : list (string * JSValue) :=
  match v with JObj members => members | _ => nil end.

Definition as_FieldType (v : option JSValue) : FieldType :=
  match as_string v with
  | Some s =>
      if String.eqb s "number" then number
      else if String.eqb s "email" then email
      else if String.eqb s "select" then select
      else if String.eqb s "textarea" then textarea
      else if String.eqb s "radio" then radio
      else text
  | None => text
  end.

Definition as_FormOption (v : JSValue) : FormOption :=
  let m := members_of v in
  FormOption.mk (default ""%string (as_string (assoc "value" m)))
                (default ""%string (as_string (assoc "label" m))).

Definition as_FormValidation (v : JSValue) : FormValidation :=
  let m := members_of v in
  FormValidation.mk (as_string (assoc "pattern" m)) (as_string (assoc "message" m))
    (as_number (assoc "min" m)) (as_number (assoc "max" m))
    (as_number (assoc "minLength" m)) (as_number (assoc "maxLength" m)).

Definition as_FormField (v : JSValue) : FormField :=
  let m := members_of v in
  FormField.mk (default ""%string (as_string (assoc "id" m)))
    (as_FieldType (assoc "type" m))
    (default ""%string (as_string (assoc "label" m)))
    (as_boolean (assoc "required" m))
    (as_string (assoc "placeholder" m))
    (match assoc "options" m with
     | Some (JArr l) => Some (List.map as_FormOption l)
     | _ => None
     end)
    (match assoc "validation" m with
     | Some (JObj o) => Some (as_FormValidation (JObj o))
     | _ => None
     end).

Definition as_FormSchema (v : JSValue) : FormSchema :=
  let m := members_of v in
  FormSchema.mk (default ""%string (as_string (assoc "formTitle" m)))
    (as_string (assoc "formDescription" m))
    (match assoc "fields" m with
     | Some (JArr l) => List.map as_FormField l
     | _ => nil
     end).

(** V8's wording. *)
Definition TypeError_null_read (key : string) : string :=
  ("Cannot read properties of null (reading '" ++ key ++ "')")%string.

End Reference.

Definition referenceHost : Platform := {|
  JSON_parse := Reference.JSON_parse;
  JSON_parse_message := ltac:(
    intros s m; unfold Reference.JSON_parse;
    destruct (Reference.tokenize _ _) as [ts|]; [|intros [= <-]; discriminate];
    destruct (Reference.parse_value _ _) as [[v [|t rest]]|];
    intros [= <-]; discriminate);
  TypeError_null_read := Reference.TypeError_null_read;
  RegExp_test := Reference.RegExp_test;
  RegExp_empty_pattern := ltac:(
    intros value; unfold Reference.RegExp_test; simpl;
    destruct (list_ascii_of_string value); reflexivity);
  as_FormSchema := Reference.as_FormSchema
|}.

(** ** The rules of the field validator, as the specification words them

    Section 4.2: a rule is violated when its member is set and the value
    fails it.  These are the notions the statements below are about; the
    code's own tests are in [fieldError]. *)

Section Rules.
Context `{host : Platform}.

(** Rule 1: the field is required and the value is empty. *)
Definition requiredEmpty (field : FormField) (value : string) : bool :=
  match FormField.required field with
  | Some true => String.eqb value ""
  | _ => false
  end.

(** Rule 2: a pattern is set and the value does not match it. *)
Definition patternViolated (field : FormField) (value : string) : bool :=
  match FormField.validation field with
  | Some validation =>
      match FormValidation.pattern validation with
      | Some pattern =>
          match RegExp_test pattern value with
          | inl matched => negb matched
          | inr _ => false
          end
      | None => false
      end
  | None => false
  end.

(** The value matches the pattern, if one is set. *)
Definition patternSatisfied (field : FormField) (value : string) : bool :=
  match FormField.validation field with
  | Some validation =>
      match FormValidation.pattern validation with
      | Some pattern =>
          match RegExp_test pattern value with
          | inl matched => matched
          | inr _ => false
          end
      | None => true
      end
  | None => true
  end.

(** The pattern, if one is set, is a regular expression. *)
Definition patternWellFormed (field : FormField) (value : string) : bool :=
  match FormField.validation field with
  | Some validation =>
      match FormValidation.pattern validation with
      | Some pattern =>
          match RegExp_test pattern value with
          | inl _ => true
          | inr _ => false
          end
      | None => true
      end
  | None => true
  end.

(** Rule 3: minLength is set and the value is shorter. *)
Definition minLengthViolated (field : FormField) (value : string) : bool :=
  match FormField.validation field with
  | Some validation =>
      match FormValidation.minLength validation with
      | Some minLength => Z.of_nat (String.length value) <? minLength
      | None => false
      end
  | None => false
  end.

(** Rule 4: maxLength is set and the value is longer. *)
Definition maxLengthViolated (field : FormField) (value : string) : bool :=
  match FormField.validation field with
  | Some validation =>
      match FormValidation.maxLength validation with
      | Some maxLength => maxLength <? Z.of_nat (String.length value)
      | None => false
      end
  | None => false
  end.

(** The messages of the violated rules 2 to 4, in evaluation order. *)
Definition violatedRules (field : FormField) (value : string) : list string :=
  match FormField.validation field with
  | Some validation =>
      (if patternViolated field value
       then [match FormValidation.message validation with
             | Some message => message
             | None => "Invalid format"
             end]
       else [])
      ++ (if minLengthViolated field value
          then ["Minimum length is "
                  ++ Number_toString (default 0 (FormValidation.minLength validation))]
          else [])
      ++ (if maxLengthViolated field value
          then ["Maximum length is "
                  ++ Number_toString (default 0 (FormValidation.maxLength validation))]
          else [])
  | None => []
  end.

(** A maxLength of 0 is present in the schema and falsy in the code. *)
Definition maxLengthIsZero (field : FormField) : bool :=
  match FormField.validation field with
  | Some validation =>
      match FormValidation.maxLength validation with
      | Some maxLength => maxLength =? 0
      | None => false
      end
  | None => false
  end.

(** What a validation object declares besides [min] and [max]; an absent
    object declares nothing. *)
Definition enforcedMembers (o : option FormValidation)
  : option string * option string * option Z * option Z :=
  match o with
  | Some v => (FormValidation.pattern v, FormValidation.message v,
               FormValidation.minLength v, FormValidation.maxLength v)
  | None => (None, None, None, None)
  end.

(** Two fields that differ at most in the [min] and [max] members of their
    validation objects: either may lack them, have them, or have other
    numbers there. *)
Definition sameButMinMax (f g : FormField) : Prop :=
  FormField.id f = FormField.id g
  /\ FormField.type f = FormField.type g
  /\ FormField.label f = FormField.label g
  /\ FormField.required f = FormField.required g
  /\ FormField.placeholder f = FormField.placeholder g
  /\ FormField.options f = FormField.options g
  /\ enforcedMembers (FormField.validation f) = enforcedMembers (FormField.validation g).

Definition sameSchemaButMinMax (s t : option FormSchema) : Prop :=
  match s, t with
  | Some a, Some b =>
      FormSchema.formTitle a = FormSchema.formTitle b
      /\ FormSchema.formDescription a = FormSchema.formDescription b
      /\ Forall2 sameButMinMax (FormSchema.fields a) (FormSchema.fields b)
  | None, None => True
  | _, _ => False
  end.

(** The state with another schema in the [formSchema] cell. *)
Definition withSchema (schema : option FormSchema) (st : State) : State :=
  mkState (jsonInput st) schema (jsonError st) (formData st) (formErrors st)
    (isSubmitted st) (isSubmitting st).


(** Some field of the list is required and has an empty current value. *)
Definition someRequiredEmpty (fields : list FormField) (data : gmap string string) : bool :=
  existsb (fun field => requiredEmpty field (valueOf data (FormField.id field))) fields.

(** Some field of the list has a current value that violates its pattern,
    minLength or maxLength rule. *)
Definition someRuleViolated (fields : list FormField) (data : gmap string string) : bool :=
  existsb (fun field =>
             let value := valueOf data (FormField.id field) in
             patternViolated field value || minLengthViolated field value
             || maxLengthViolated field value) fields.



(** All cells but [formErrors] agree. *)
Definition sameButErrors (st st' : State) : Prop :=
  jsonInput st' = jsonInput st /\ formSchema st' = formSchema st
  /\ jsonError st' = jsonError st /\ formData st' = formData st
  /\ isSubmitted st' = isSubmitted st /\ isSubmitting st' = isSubmitting st.

(** The validator has stored [error] under [id] and done nothing else. *)
Definition records (id error : string) (before : State) (o : Outcome unit) : Prop :=
  o = mkOutcome (Normal tt)
        (mkState (jsonInput before) (formSchema before) (jsonError before) (formData before)
           (<[id := error]> (formErrors before)) (isSubmitted before) (isSubmitting before))
        [].

(** The field of the current schema that an id designates. *)
Definition designates (st : State) (id : string) (field : FormField) : Prop :=
  findField (formSchema st) id = Some field.

End Rules.

(** ** The parser's contract, as the specification words it (section 4.1) *)

(** Empty or made of white space only. *)
Definition whitespaceOnly (text : string) : bool :=
  forallb is_whitespace (list_ascii_of_string text).

(** The member of a parsed structure under a name; only objects have any. *)
Definition member (key : string) (parsed : JSValue) : option JSValue :=
  match parsed with
  | JObj members => assoc key members
  | _ => None
  end.

(** "a title string member" and "a fields member that is a sequence", under
    the names of section 6. *)
Definition hasTitleString (parsed : JSValue) : bool :=
  match member "title" parsed with Some (JStr _) => true | _ => false end.

Definition fieldsIsSequence (parsed : JSValue) : bool :=
  match member "fields" parsed with Some (JArr _) => true | _ => false end.

Definition specInvalidSchemaFormat : string :=
  "Invalid schema format. Must include a form title and fields array.".

(** What the code accepts: a truthy [formTitle] and an array under
    [fields]. *)
Definition wellShaped (parsed : JSValue) : bool :=
  truthy (member "formTitle" parsed) && Array_isArray (member "fields" parsed).

(** ** Sample schemas and states *)

Module Samples.

(** JSON text: a string literal, a member, an object and an array. *)
Definition lit (s : string) : string := String "034" (s ++ String "034" "").
Definition mem (key text : string) : string := lit key ++ ":" ++ text.
Definition obj (members : list string) : string := "{" ++ String.concat "," members ++ "}".
Definition arr (elements : list string) : string := "[" ++ String.concat "," elements ++ "]".

(** The text of a schema titled T with the given field descriptors. *)
Definition schemaText (fields : list string) : string :=
  obj [mem "formTitle" (lit "T"); mem "fields" (arr fields)].

(** The rendered form: the schema of [schemaText], the values typed so far
    and the errors shown. *)
Definition ready (text : string) (fields : list FormField)
    (data errors : gmap string string) : State :=
  mkState text (Some (FormSchema.mk "T" None fields)) None data errors false false.

(** A name of at least three characters, not required. *)
Definition nameText : string :=
  schemaText [obj [mem "id" (lit "n"); mem "type" (lit "text"); mem "label" (lit "Name");
                   mem "validation" (obj [mem "minLength" "3"])]].

Definition nameField : FormField :=
  FormField.mk "n" text "Name" None None None
    (Some (FormValidation.mk None None None None (Some 3) None)).

(** The form of [nameText] after "ab" was typed into the field. *)
Definition shortName : State :=
  ready nameText [nameField] {["n" := "ab"]} {["n" := "Minimum length is 3"]}.

(** A required code of five digits, with both length bounds. *)
Definition zipText : string :=
  schemaText [obj [mem "id" (lit "zip"); mem "type" (lit "text"); mem "label" (lit "Zip");
                   mem "required" "true";
                   mem "validation" (obj [mem "pattern" (lit "^[0-9]{5}$");
                                          mem "minLength" "5"; mem "maxLength" "5"])]].

Definition zipField : FormField :=
  FormField.mk "zip" text "Zip" (Some true) None None
    (Some (FormValidation.mk (Some "^[0-9]{5}$") None None None (Some 5) (Some 5))).

(** A code of five digits with no length bound; [message] is the text of
    the message member, if the descriptor has one. *)
Definition codeText (message : option string) : string :=
  schemaText [obj [mem "id" (lit "code"); mem "type" (lit "text"); mem "label" (lit "Code");
                   mem "validation"
                     (obj (mem "pattern" (lit "^[0-9]{5}$")
                           :: match message with
                              | Some m => [mem "message" (lit m)]
                              | None => []
                              end))]].

Definition codeField (message : option string) : FormField :=
  FormField.mk "code" text "Code" None None None
    (Some (FormValidation.mk (Some "^[0-9]{5}$") message None None None None)).

(** At least five characters and at most none. *)
Definition commentText : string :=
  schemaText [obj [mem "id" (lit "c"); mem "type" (lit "textarea");
                   mem "label" (lit "Comment");
                   mem "validation" (obj [mem "minLength" "5"; mem "maxLength" "0"])]].

Definition commentField : FormField :=
  FormField.mk "c" textarea "Comment" None None None
    (Some (FormValidation.mk None None None None (Some 5) (Some 0))).

(** An age with a minLength, with and without numeric bounds. *)
Definition ageText (bounds : list string) : string :=
  schemaText [obj [mem "id" (lit "age"); mem "type" (lit "number"); mem "label" (lit "Age");
                   mem "validation" (obj (bounds ++ [mem "minLength" "3"]))]].

Definition ageField (min max : option Z) : FormField :=
  FormField.mk "age" number "Age" None None None
    (Some (FormValidation.mk None None min max (Some 3) None)).

(** Schema texts that name the title [title], give a number as [formTitle],
    and have no title at all; and what [JSON.parse] makes of them. *)
Definition titleKeyText : string := obj [mem "title" (lit "T"); mem "fields" (arr [])].
Definition titleKeyValue : JSValue := JObj [("title", JStr "T"); ("fields", JArr [])].

Definition numericTitleText : string := obj [mem "formTitle" "1"; mem "fields" (arr [])].
Definition numericTitleValue : JSValue := JObj [("formTitle", JNum 1); ("fields", JArr [])].

Definition noTitleText : string := obj [mem "fields" (arr [])].
Definition noTitleValue : JSValue := JObj [("fields", JArr [])].

(** The forms of these texts, as rendered before anything is typed, and
    the zip form after "1234" was typed. *)
Definition zipForm : State := ready zipText [zipField] ∅ ∅.
Definition zipTyped : State :=
  ready zipText [zipField] {["zip" := "1234"]} {["zip" := "Minimum length is 5"]}.
Definition codeForm (message : option string) : State :=
  ready (codeText message) [codeField message] ∅ ∅.
Definition commentForm : State := ready commentText [commentField] ∅ ∅.
Definition ageForm : State := ready (ageText []) [ageField None None] ∅ ∅.

(** A text of blanks, a tab and a line feed, and one that is not JSON. *)
Definition blankText : string := String " " (String "009" (String "010" " ")).
Definition brokenText : string := "{oops".

(** A fresh component with [text] in the editor, before the effect runs. *)
Definition typed (text : string) : State :=
  mkState text None None ∅ ∅ false false.

End Samples.

(** ** Events and sessions *)

Section Behaviour.
Context `{host : Platform}.

(** What the user can do: type in the schema editor (line 144), change the
    value of a field (lines 184, 204, 216, 226), submit the form
    (line 167). *)
Inductive Event :=
| EditSchema (newText : string)
| ChangeValue (id value : string)
| SubmitForm.

Definition handle (e : Event) : M unit :=
  match e with
  | EditSchema newText => editSchemaText newText
  | ChangeValue id value => handleInputChange id value
  | SubmitForm => handleSubmit
  end.

(** The events of a session, one after the other.  An exception that
    escapes a handler ends that handler only; the updates it had made stay
    and the component goes on. *)
Fixpoint session (events : list Event) (st : State) : State :=
  match events with
  | [] => st
  | e :: rest => session rest (store (handle e st))
  end.

(** ** The tests of the validator, as the code writes them *)

(** Line 89. *)
Definition requiredFires (field : FormField) (value : string) : bool :=
  truthy (FormField.required field) && negb (truthy value).

(** Line 92; an ill-formed pattern throws and fires nothing. *)
Definition patternFires (validation : FormValidation) (value : string) : bool :=
  match FormValidation.pattern validation with
  | Some pattern =>
      truthy pattern
      && match RegExp_test pattern value with
         | inl matched => negb matched
         | inr _ => false
         end
  | None => false
  end.

(** Line 95. *)
Definition minLengthFires (validation : FormValidation) (value : string) : bool :=
  match FormValidation.minLength validation with
  | Some minLength => truthy minLength && (Z.of_nat (String.length value) <? minLength)
  | None => false
  end.

(** Line 98. *)
Definition maxLengthFires (validation : FormValidation) (value : string) : bool :=
  match FormValidation.maxLength validation with
  | Some maxLength => truthy maxLength && (maxLength <? Z.of_nat (String.length value))
  | None => false
  end.

(** Some assignment to [error] other than the initial one is executed. *)
Definition someRuleFires (field : FormField) (value : string) : bool :=
  requiredFires field value
  || match FormField.validation field with
     | Some validation =>
         patternFires validation value || minLengthFires validation value
         || maxLengthFires validation value
     | None => false
     end.

(** ** The submit pass over a schema whose patterns compile *)







(** The values typed during a session, the later over the earlier, on top
    of those held before. *)
Definition typedValues (events : list Event) (data : gmap string string)
  : gmap string string :=
  fold_left
    (fun data e =>
       match e with
       | ChangeValue id value => <[id := value]> data
       | _ => data
       end)
    events data.

(** The text left in the editor by a session. *)
Definition lastText (events : list Event) (text : string) : string :=
  fold_left
    (fun text e =>
       match e with
       | EditSchema newText => newText
       | _ => text
       end)
    events text.

(** The schema and the schema error are those the effect computes from the
    text in the editor. *)
Definition inSync (st : State) : Prop :=
  formSchema st = formSchema (store (useEffect_jsonInput st))
  /\ jsonError st = jsonError (store (useEffect_jsonInput st)).

End Behaviour.

(** ** What the component renders (lines 5-15 and 133-263)

    The tree of elements the component returns, with the two local
    components [Alert] and [AlertDescription] expanded and the icons of
    lucide-react left as elements of their own name.  Children that React
    does not render (null, undefined, false and the empty string) are left
    out of the child lists. *)

Inductive Listener :=
| OnSchemaChange                  (* (e) => setJsonInput(e.target.value) *)
| OnFieldChange (id : string)     (* (e) => handleInputChange(field.id, e.target.value) *)
| OnSubmit.                       (* handleSubmit *)

Inductive PropValue :=
| PString (s : string)
| PBoolean (b : bool)
| PListener (l : Listener)
| PUndefined.

#[warnings="-register-all"]
Inductive Element :=
| Elem (tag : string) (key : option string) (props : list (string * PropValue))
       (children : list Element)
| Text (s : string).

(** A string placed as a child. *)
Definition textChild (s : string) : list Element :=
  if truthy s then [Text s] else [].

(** [{condition && element}] *)
Definition when (condition : bool) (element : Element) : list Element :=
  if condition then [element] else [].

(** A prop given an optional member of the schema. *)
Definition optionalProp {A} (f : A -> PropValue) (o : option A) : PropValue :=
  match o with
  | Some a => f a
  | None => PUndefined
  end.

(** [`${o}`] for an optional string. *)
Definition interpolate (o : option string) : string :=
  match o with
  | Some s => s
  | None => "undefined"
  end.

(** The prop of an element under a name; [PUndefined] when it has none. *)
Definition prop (name : string) (e : Element) : PropValue :=
  match e with
  | Elem _ _ props _ =>
      match List.find (fun p => String.eqb (fst p) name) props with
      | Some (_, v) => v
      | None => PUndefined
      end
  | Text _ => PUndefined
  end.

Definition childrenOf (e : Element) : list Element :=
  match e with
  | Elem _ _ _ children => children
  | Text _ => []
  end.

(** Lines 5-11. *)
Definition Alert (variant className : option string) (children : list Element) : Element :=
  Elem "div" None
    [("className", PString ("alert alert-" ++ interpolate variant ++ " "
                              ++ interpolate className))]
    children.

(** Lines 13-15. *)
Definition AlertDescription (children : list Element) : Element :=
  Elem "span" None [("className", PString "alert-description")] children.

Definition fieldTypeName (t : FieldType) : string :=
  match t with
  | text => "text"
  | number => "number"
  | email => "email"
  | select => "select"
  | textarea => "textarea"
  | radio => "radio"
  end.

(** The placeholder of the schema editor (lines 145-155). *)
Definition schemaPlaceholder : string :=
  let q (s : string) := String "034" (s ++ String "034" "") in
  let indent (n : nat) (s : string) := (String.concat "" (repeat " " n) ++ s)%string in
  String.concat (String "010" "")
    [ "{";
      indent 16%nat (q "title" ++ ": " ++ q "Contact Form" ++ ",");
      indent 16%nat (q "fields" ++ ": [");
      indent 18%nat "{";
      indent 20%nat (q "type" ++ ": " ++ q "text" ++ ",");
      indent 20%nat (q "label" ++ ": " ++ q "Name" ++ ",");
      indent 20%nat (q "name" ++ ": " ++ q "name" ++ ",");
      indent 20%nat (q "required" ++ ": true");
      indent 18%nat "}";
      indent 16%nat "]";
      indent 14%nat "}" ].

(** Lines 139-163: the editor panel. *)
Definition renderEditor (st : State) : Element :=
  Elem "div" None [("className", PString "bg-white rounded-lg shadow p-4")]
    ([ Elem "h2" None [("className", PString "text-lg font-semibold mb-4")]
         [Text "JSON Schema Editor"];
       Elem "textarea" None
         [("className", PString "w-full h-96 font-mono p-2 border rounded focus:ring-2 focus:ring-blue-500");
          ("value", PString (jsonInput st));
          ("onChange", PListener OnSchemaChange);
          ("placeholder", PString schemaPlaceholder)]
         [] ]
     ++ match jsonError st with
        | Some error =>
            when (truthy error)
              (Alert (Some "destructive") (Some "mt-4")
                 [ Elem "AlertCircle" None [("className", PString "h-4 w-4")] [];
                   AlertDescription (textChild error) ])
        | None => []
        end).

(** Lines 190-192. *)
Definition renderOption (option : FormOption) : Element :=
  Elem "option" (Some (FormOption.value option))
    [("value", PString (FormOption.value option))]
    (textChild (FormOption.label option)).

(** [formData[field.id] === option.value] *)
Definition isChecked (st : State) (field : FormField) (option : FormOption) : bool :=
  match formData st !! FormField.id field with
  | Some v => String.eqb v (FormOption.value option)
  | None => false
  end.

(** Lines 199-207. *)
Definition radioInput (st : State) (field : FormField) (option : FormOption) : Element :=
  Elem "input" None
    [("type", PString "radio");
     ("name", PString (FormField.id field));
     ("value", PString (FormOption.value option));
     ("checked", PBoolean (isChecked st field option));
     ("onChange", PListener (OnFieldChange (FormField.id field)));
     ("className", PString "focus:ring-2 focus:ring-blue-500");
     ("required", optionalProp PBoolean (FormField.required field))]
    [].

(** Lines 198-209. *)
Definition renderRadio (st : State) (field : FormField) (option : FormOption) : Element :=
  Elem "label" (Some (FormOption.value option))
    [("className", PString "flex items-center space-x-2")]
    [ radioInput st field option;
      Elem "span" None [("className", PString "text-sm text-gray-700")]
        (textChild (FormOption.label option)) ].

(** [field.options?.map(f)] *)
Definition mapOptions (f : FormOption -> Element) (field : FormField) : list Element :=
  match FormField.options field with
  | Some options => List.map f options
  | None => []
  end.

(** Lines 180-231: the widget of a field. *)
Definition renderWidget (st : State) (field : FormField) : Element :=
  match FormField.type field with
  | select =>
      Elem "select" None
        [("id", PString (FormField.id field));
         ("value", PString (valueOf (formData st) (FormField.id field)));
         ("onChange", PListener (OnFieldChange (FormField.id field)));
         ("className", PString "w-full p-2 border rounded focus:ring-2 focus:ring-blue-500");
         ("required", optionalProp PBoolean (FormField.required field))]
        (Elem "option" None [("value", PString "")] [Text "Select an option"]
         :: mapOptions renderOption field)
  | radio =>
      Elem "div" None [("className", PString "space-y-2")]
        (mapOptions (renderRadio st field) field)
  | textarea =>
      Elem "textarea" None
        [("id", PString (FormField.id field));
         ("value", PString (valueOf (formData st) (FormField.id field)));
         ("onChange", PListener (OnFieldChange (FormField.id field)));
         ("placeholder", optionalProp PString (FormField.placeholder field));
         ("className", PString "w-full p-2 border rounded focus:ring-2 focus:ring-blue-500 min-h-[100px]");
         ("required", optionalProp PBoolean (FormField.required field))]
        []
  | text | number | email =>
      Elem "input" None
        [("type", PString (fieldTypeName (FormField.type field)));
         ("id", PString (FormField.id field));
         ("value", PString (valueOf (formData st) (FormField.id field)));
         ("onChange", PListener (OnFieldChange (FormField.id field)));
         ("placeholder", optionalProp PString (FormField.placeholder field));
         ("className", PString "w-full p-2 border rounded focus:ring-2 focus:ring-blue-500");
         ("required", optionalProp PBoolean (FormField.required field))]
        []
  end.

(** Lines 233-235: the error under a field. *)
Definition renderError (st : State) (field : FormField) : list Element :=
  match formErrors st !! FormField.id field with
  | Some error =>
      when (truthy error)
        (Elem "p" None [("className", PString "text-sm text-red-500")] (textChild error))
  | None => []
  end.

(** Lines 174-236: one field. *)
Definition renderField (st : State) (field : FormField) : Element :=
  Elem "div" (Some (FormField.id field)) [("className", PString "space-y-2")]
    ([ Elem "label" None [("className", PString "block text-sm font-medium text-gray-700")]
         (textChild (FormField.label field)
          ++ when (truthy (FormField.required field))
               (Elem "span" None [("className", PString "text-red-500")] [Text "*"]));
       renderWidget st field ]
     ++ renderError st field).

(** Lines 239-245. *)
Definition renderButton (st : State) : Element :=
  Elem "button" None
    [("type", PString "submit");
     ("disabled", PBoolean (isSubmitting st));
     ("className", PString "w-full bg-blue-500 text-white py-2 px-4 rounded hover:bg-blue-600 disabled:opacity-50")]
    [Text (if isSubmitting st then "Submitting..." else "Submit")].

(** Lines 247-252. *)
Definition renderSuccess (st : State) : list Element :=
  when (isSubmitted st)
    (Alert None (Some "mt-4")
       [ Elem "CheckCircle2" None [("className", PString "h-4 w-4")] [];
         AlertDescription [Text "Form submitted successfully!"] ]).

(** Lines 167-253: the form of a schema. *)
Definition renderForm (st : State) (schema : FormSchema) : Element :=
  Elem "form" None
    [("onSubmit", PListener OnSubmit); ("className", PString "space-y-4")]
    ([ Elem "h2" None [("className", PString "text-lg font-semibold mb-2")]
         (textChild (FormSchema.formTitle schema)) ]
     ++ match FormSchema.formDescription schema with
        | Some description =>
            when (truthy description)
              (Elem "p" None [("className", PString "text-gray-600 mb-6")]
                 (textChild description))
        | None => []
        end
     ++ List.map (renderField st) (FormSchema.fields schema)
     ++ [renderButton st]
     ++ renderSuccess st).

(** Lines 165-259: the form panel. *)
Definition renderPanel (st : State) : Element :=
  Elem "div" None [("className", PString "bg-white rounded-lg shadow p-4")]
    [ match formSchema st with
      | Some schema => renderForm st schema
      | None =>
          Elem "div" None [("className", PString "text-center text-gray-500")]
            [Text "Enter a valid JSON schema to generate the form"]
      end ].

(** Lines 133-263. *)
Definition render (st : State) : Element :=
  Elem "div" None [("className", PString "min-h-screen bg-gray-50 p-4")]
    [ Elem "div" None [("className", PString "container mx-auto")]
        [ Elem "h1" None [("className", PString "text-2xl font-bold mb-6")]
            [Text "Dynamic Form Generator"];
          Elem "div" None [("className", PString "grid md:grid-cols-2 gap-6")]
            [renderEditor st; renderPanel st] ] ].

(** The value that [JSON.parse] makes of the placeholder. *)
Definition placeholderValue : JSValue :=
  JObj [("title", JStr "Contact Form");
        ("fields", JArr [JObj [("type", JStr "text"); ("label", JStr "Name");
                               ("name", JStr "name"); ("required", JBool true)]])].

(** ** More sample forms *)

Module Cases.
Import Samples.

(** A field whose pattern is an unterminated class. *)
Definition unclosedText : string :=
  schemaText [obj [mem "id" (lit "b"); mem "type" (lit "text"); mem "label" (lit "Batch");
                   mem "validation" (obj [mem "pattern" (lit "[0-9")])]].

Definition unclosedField : FormField :=
  FormField.mk "b" text "Batch" None None None
    (Some (FormValidation.mk (Some "[0-9") None None None None None)).

(** The form of [unclosedText], before and after "x" was typed. *)
Definition unclosedForm : State := ready unclosedText [unclosedField] ∅ ∅.
Definition unclosedTyped : State := ready unclosedText [unclosedField] {["b" := "x"]} ∅.

(** The required zip code and the name of at least three characters. *)
Definition zipAndNameText : string :=
  schemaText [obj [mem "id" (lit "zip"); mem "type" (lit "text"); mem "label" (lit "Zip");
                   mem "required" "true";
                   mem "validation" (obj [mem "pattern" (lit "^[0-9]{5}$");
                                          mem "minLength" "5"; mem "maxLength" "5"])];
              obj [mem "id" (lit "n"); mem "type" (lit "text"); mem "label" (lit "Name");
                   mem "validation" (obj [mem "minLength" "3"])]].

(** That form after "ab" was typed as the name, the zip code left empty. *)
Definition zipAndName : State :=
  ready zipAndNameText [zipField; nameField]
    {["n" := "ab"]} {["n" := "Minimum length is 3"]}.

(** A choice between two colours. *)
Definition colours : list FormOption :=
  [FormOption.mk "r" "Red"; FormOption.mk "g" "Green"].

Definition colourField : FormField :=
  FormField.mk "colour" radio "Colour" None None (Some colours) None.

(** A session after a submission: the editor is emptied, a value is
    changed, the form is submitted again and another schema is typed. *)
Definition laterEvents : list Event :=
  [EditSchema ""; ChangeValue "n" "abc"; SubmitForm; EditSchema zipText].

End Cases.

(** ** Unfolding a handler *)

Ltac run :=
  unfold handleInputChange, validateField, editSchemaText, useEffect_jsonInput,
    setFormSchema, setJsonError, setJsonInput, setFormData, setFormErrors,
    setIsSubmitted, setIsSubmitting, update, try_catch, liftC, snapshot, emit, throw,
    bind, ret, withSchema;
  cbn [completion store trace jsonInput formSchema jsonError formData formErrors
       isSubmitted isSubmitting app negb].

(** * Properties *)

Section Properties.
Context `{host : Platform}.

(** ** Truthiness and trimming *)

Lemma truthy_string_eqb (s : string) : truthy s = negb (String.eqb s "").
Proof. destruct s; reflexivity. Qed.

Lemma truthy_string_false (s : string) : truthy s = false <-> s = "".
Proof. unfold truthy, Truthy_string. destruct s; split; intros; congruence. Qed.

Lemma truthy_number_false (n : Z) : truthy n = false <-> n = 0.
Proof.
  unfold truthy, Truthy_number. destruct (Z.eqb_spec n 0); simpl; split; intros; congruence.
Qed.

Lemma trimEnd_whitespace (s : string) :
  forallb is_whitespace (list_ascii_of_string s) = true -> trimEnd s = "".
Proof.
  induction s as [|c s IH]; simpl; [reflexivity|].
  intros [Hc Hs]%andb_true_iff. rewrite (IH Hs), Hc. reflexivity.
Qed.

Lemma trimEnd_empty (s : string) :
  trimEnd s = "" -> forallb is_whitespace (list_ascii_of_string s) = true.
Proof.
  induction s as [|c s IH]; simpl; [reflexivity|].
  destruct (trimEnd s) eqn:E; [|discriminate].
  destruct (is_whitespace c); [|discriminate].
  intros _. apply IH. reflexivity.
Qed.

Lemma trimStart_whitespace (s : string) :
  forallb is_whitespace (list_ascii_of_string s)
  = forallb is_whitespace (list_ascii_of_string (trimStart s)).
Proof.
  induction s as [|c s IH]; simpl; [reflexivity|].
  destruct (is_whitespace c) eqn:E; simpl; [assumption|].
  rewrite E. reflexivity.
Qed.

(** [!text.trim()] holds exactly of the texts made of white space only. *)
Lemma trim_blank (s : string) :
  truthy (trim s) = false <-> forallb is_whitespace (list_ascii_of_string s) = true.
Proof.
  rewrite truthy_string_false. unfold trim. rewrite (trimStart_whitespace s). split.
  - apply trimEnd_empty.
  - apply trimEnd_whitespace.
Qed.

(** ** The validator and its field *)

Lemma findField_id (schema : option FormSchema) (id : string) (field : FormField) :
  findField schema id = Some field -> FormField.id field = id.
Proof.
  destruct schema as [s|]; simpl; [|discriminate].
  intros H. apply find_some in H as [_ H]. apply String.eqb_eq in H. exact H.
Qed.

Lemma findField_absent (schema : option FormSchema) (id : string) :
  match schema with
  | Some s => forall field, In field (FormSchema.fields s) -> FormField.id field <> id
  | None => True
  end ->
  findField schema id = None.
Proof.
  destruct schema as [s|]; simpl; [|reflexivity].
  intros H. destruct (find _ _) as [f|] eqn:E; [|reflexivity].
  apply find_some in E as [Hin Heq]. apply String.eqb_eq in Heq.
  exfalso. exact (H f Hin Heq).
Qed.

(** The validator stores what [fieldError] computes. *)
Lemma validateField_records (st : State) (id value error : string) (field : FormField) :
  designates st id field ->
  fieldError field value = Normal error ->
  records id error st (validateField id value st).
Proof.
  unfold designates, records. intros Hf He. run. rewrite Hf. simpl. rewrite He. reflexivity.
Qed.

(** The test of line 89 is rule 1. *)
Lemma requiredEmpty_test (field : FormField) (value : string) :
  truthy (FormField.required field) && negb (truthy value) = requiredEmpty field value.
Proof.
  unfold requiredEmpty. rewrite truthy_string_eqb, negb_involutive.
  destruct (FormField.required field) as [[|]|]; reflexivity.
Qed.

(** A pattern that some value fails is not the empty pattern. *)
Lemma mismatch_pattern_truthy (pattern value : string) :
  RegExp_test pattern value = inl false -> truthy pattern = true.
Proof.
  destruct pattern; [|reflexivity].
  rewrite RegExp_empty_pattern. discriminate.
Qed.

(** ** The field validator *)

(** C4: for a field with required set to true, validating the empty value
    records exactly "This field is required", whatever pattern, minLength or
    maxLength the field declares. *)
Theorem required_empty_value_error (st : State) (id : string) (field : FormField) :
  designates st id field ->
  FormField.required field = Some true ->
  records id "This field is required" st (validateField id "" st).
Proof.
  intros Hf Hreq. apply (validateField_records st id "" _ field Hf).
  unfold fieldError. rewrite Hreq. reflexivity.
Qed.

(** C8: a value that satisfies every declared rule of the field (not empty
    when the field is required, matching the pattern if one is set, within
    minLength and maxLength if set) makes the validator store the empty
    error under the field's id, whatever was recorded there before. *)
Theorem valid_value_clears_error (st : State) (id value : string) (field : FormField) :
  designates st id field ->
  requiredEmpty field value = false ->
  patternSatisfied field value = true ->
  minLengthViolated field value = false ->
  maxLengthViolated field value = false ->
  records id "" st (validateField id value st)
  /\ formErrors (store (validateField id value st)) !! id = Some "".
Proof.
  intros Hf Hreq Hpat Hmin Hmax.
  assert (He : fieldError field value = Normal "").
  { unfold fieldError. rewrite requiredEmpty_test, Hreq.
    unfold patternSatisfied, minLengthViolated, maxLengthViolated in *.
    destruct (FormField.validation field) as [v|]; [|reflexivity].
    unfold checkPattern, checkMinLength, checkMaxLength.
    destruct (FormValidation.pattern v) as [p|].
    - destruct (RegExp_test p value) as [[|]|]; try discriminate.
      destruct (truthy p); simpl;
        destruct (FormValidation.minLength v); rewrite ?Hmin, ?andb_false_r;
        destruct (FormValidation.maxLength v); rewrite ?Hmax, ?andb_false_r; reflexivity.
    - destruct (FormValidation.minLength v); rewrite ?Hmin, ?andb_false_r;
        destruct (FormValidation.maxLength v); rewrite ?Hmax, ?andb_false_r; reflexivity. }
  pose proof (validateField_records st id value "" field Hf He) as Hrec.
  split; [exact Hrec|].
  unfold records in Hrec. rewrite Hrec. simpl. apply lookup_insert_eq.
Qed.

(** C10: with no schema, or with a schema none of whose fields has the id,
    the validator returns without touching any cell and without any effect. *)
Theorem validateField_unknown_id (st : State) (id value : string) :
  (formSchema st = None
   \/ exists schema, formSchema st = Some schema
        /\ forall field, In field (FormSchema.fields schema) -> FormField.id field <> id) ->
  validateField id value st = mkOutcome (Normal tt) st [].
Proof.
  intros H.
  assert (Hnone : findField (formSchema st) id = None).
  { apply findField_absent. destruct H as [-> | (schema & -> & Hall)]; [exact I | exact Hall]. }
  run. rewrite Hnone. reflexivity.
Qed.

(** C7, amended: when the required rule and the two length rules do not
    apply and the value fails the pattern, the validator records
    validation.message if it is provided and not the empty string, and
    "Invalid format" otherwise. *)
Theorem pattern_mismatch_message
    (st : State) (id value pattern : string) (field : FormField) (validation : FormValidation) :
  designates st id field ->
  requiredEmpty field value = false ->
  FormField.validation field = Some validation ->
  FormValidation.pattern validation = Some pattern ->
  RegExp_test pattern value = inl false ->
  minLengthViolated field value = false ->
  maxLengthViolated field value = false ->
  records id
    (match FormValidation.message validation with
     | Some message => if String.eqb message "" then "Invalid format" else message
     | None => "Invalid format"
     end)
    st (validateField id value st).
Proof.
  intros Hf Hreq Hv Hp Htest Hmin Hmax.
  apply (validateField_records st id value _ field Hf).
  unfold fieldError. rewrite requiredEmpty_test, Hreq, Hv.
  unfold minLengthViolated, maxLengthViolated in *. rewrite Hv in Hmin, Hmax.
  unfold checkPattern, checkMinLength, checkMaxLength.
  rewrite Hp, (mismatch_pattern_truthy _ _ Htest), Htest. simpl.
  destruct (FormValidation.minLength validation); rewrite ?Hmin, ?andb_false_r;
    destruct (FormValidation.maxLength validation); rewrite ?Hmax, ?andb_false_r;
    destruct (FormValidation.message validation) as [[|c m]|]; reflexivity.
Qed.

(** C3, amended: for a field whose pattern, if any, is well formed and whose
    maxLength, if present, is not 0, when the required rule does not apply
    and at least two of the pattern, minLength and maxLength rules are
    violated, the validator records the message of the last violated rule in
    the order pattern, minLength, maxLength. *)
Theorem last_violated_rule_wins (st : State) (id value : string) (field : FormField) :
  designates st id field ->
  requiredEmpty field value = false ->
  patternWellFormed field value = true ->
  maxLengthIsZero field = false ->
  (2 <= List.length (violatedRules field value))%nat ->
  records id (List.last (violatedRules field value) "") st (validateField id value st).
Proof.
  intros Hf Hreq Hwf Hzero Hcount.
  apply (validateField_records st id value _ field Hf).
  unfold fieldError. rewrite requiredEmpty_test, Hreq.
  unfold violatedRules, patternViolated, minLengthViolated, maxLengthViolated,
    patternWellFormed, maxLengthIsZero in *.
  destruct (FormField.validation field) as [v|]; [|simpl in Hcount; lia].
  unfold checkPattern, checkMinLength, checkMaxLength.
  destruct (FormValidation.maxLength v) as [mx|];
    destruct (FormValidation.minLength v) as [mn|]; simpl default in *.
  all: try (assert (Hmx : truthy mx = true)
              by (unfold truthy, Truthy_number; rewrite Hzero; reflexivity);
            rewrite Hmx).
  all: try (destruct (Z.ltb_spec (Z.of_nat (String.length value)) mn) as [Hlt|Hge];
            [assert (Hmn : truthy mn = true)
               by (unfold truthy, Truthy_number; destruct (Z.eqb_spec mn 0); [lia|reflexivity]);
             rewrite Hmn|rewrite andb_false_r]).
  all: destruct (FormValidation.pattern v) as [p|];
    try (destruct (RegExp_test p value) as [[|]|] eqn:Htest; [| |discriminate]);
    try rewrite (mismatch_pattern_truthy _ _ Htest);
    try (destruct (truthy p));
    try (destruct (mx <? Z.of_nat (String.length value)));
    simpl in Hcount |- *; try lia; try rewrite last_last_cons; reflexivity.
Qed.

(** ** [min] and [max] *)

Lemma fieldError_sameButMinMax (f g : FormField) (value : string) :
  sameButMinMax f g -> fieldError f value = fieldError g value.
Proof.
  intros (_ & _ & _ & Hreq & _ & _ & Hv).
  unfold fieldError. rewrite Hreq.
  destruct (truthy (FormField.required g) && negb (truthy value)); [reflexivity|].
  unfold checkPattern, checkMinLength, checkMaxLength.
  destruct (FormField.validation f) as [v|], (FormField.validation g) as [w|];
    simpl in Hv; [| | |reflexivity].
  - injection Hv as H1 H2 H3 H4. rewrite H1, H2, H3, H4. reflexivity.
  - injection Hv as H1 _ H3 H4. rewrite H1, H3, H4. reflexivity.
  - injection Hv as H1 _ H3 H4. rewrite <- H1, <- H3, <- H4. reflexivity.
Qed.

Lemma find_sameButMinMax (id : string) (l l' : list FormField) :
  Forall2 sameButMinMax l l' ->
  match List.find (fun f => String.eqb (FormField.id f) id) l,
        List.find (fun f => String.eqb (FormField.id f) id) l' with
  | Some f, Some g => sameButMinMax f g
  | None, None => True
  | _, _ => False
  end.
Proof.
  induction 1 as [|f g l l' Hfg _ IH]; simpl; [exact I|].
  destruct Hfg as (Hid & Hrest). rewrite <- Hid.
  destruct (String.eqb (FormField.id f) id); [|exact IH].
  split; assumption.
Qed.

(** C5: the validator does not read [min] and [max].  Replacing the schema by
    one whose fields differ only in having, lacking or changing these two
    members changes neither how the validator completes, nor its effects,
    nor the error mapping it leaves; and a field that declares nothing but
    [min] and [max] gets the empty error for every value the required rule
    lets through. *)
Theorem min_max_not_enforced (st : State) (schema' : option FormSchema) (id value : string) :
  sameSchemaButMinMax (formSchema st) schema' ->
  completion (validateField id value (withSchema schema' st))
    = completion (validateField id value st)
  /\ trace (validateField id value (withSchema schema' st))
       = trace (validateField id value st)
  /\ formErrors (store (validateField id value (withSchema schema' st)))
       = formErrors (store (validateField id value st))
  /\ forall field,
       designates st id field ->
       enforcedMembers (FormField.validation field) = (None, None, None, None) ->
       requiredEmpty field value = false ->
       records id "" st (validateField id value st).
Proof.
  intros Hsame.
  assert (Hfind :
    match findField (formSchema st) id, findField schema' id with
    | Some f, Some g => sameButMinMax f g
    | None, None => True
    | _, _ => False
    end).
  { destruct (formSchema st) as [a|], schema' as [b|]; simpl in *; try contradiction;
      [|exact I].
    destruct Hsame as (_ & _ & Hfields). exact (find_sameButMinMax id _ _ Hfields). }
  assert (Hout : forall field,
    designates st id field ->
    enforcedMembers (FormField.validation field) = (None, None, None, None) ->
    requiredEmpty field value = false ->
    records id "" st (validateField id value st)).
  { intros field Hf Hnone Hreq. apply (validateField_records st id value _ field Hf).
    unfold fieldError. rewrite requiredEmpty_test, Hreq.
    unfold checkPattern, checkMinLength, checkMaxLength.
    destruct (FormField.validation field) as [v|]; [|reflexivity].
    simpl in Hnone. injection Hnone as H1 _ H3 H4. rewrite H1, H3, H4. reflexivity. }
  refine (conj _ (conj _ (conj _ Hout))); run;
    destruct (findField (formSchema st) id) as [f|], (findField schema' id) as [g|];
    try contradiction; simpl; try reflexivity;
    rewrite <- (fieldError_sameButMinMax f g value Hfind);
    destruct (fieldError f value); reflexivity.
Qed.

(** ** The schema parser *)

Lemma trim_truthy (text : string) : truthy (trim text) = negb (whitespaceOnly text).
Proof.
  unfold whitespaceOnly. destruct (truthy (trim text)) eqn:E.
  - destruct (forallb _ _) eqn:F; [|reflexivity].
    apply trim_blank in F. congruence.
  - apply trim_blank in E. rewrite E. reflexivity.
Qed.

Lemma malformed_wellShaped (parsed : JSValue) :
  parsed <> JNull -> malformed parsed = Normal (negb (wellShaped parsed)).
Proof.
  intros Hnull. unfold malformed, wellShaped, getMember, member.
  destruct parsed; try congruence; try reflexivity.
  destruct (truthy (assoc "formTitle" members)); reflexivity.
Qed.

(** The effect writes [formSchema] and [jsonError] only, completes normally
    and has no other effect, whatever the text. *)
Lemma useEffect_jsonInput_frame (st : State) :
  exists schema error,
    useEffect_jsonInput st
    = mkOutcome (Normal tt)
        (mkState (jsonInput st) schema error (formData st) (formErrors st)
           (isSubmitted st) (isSubmitting st)) [].
Proof.
  run. destruct (negb (truthy (trim (jsonInput st)))); simpl; [eauto|].
  destruct (JSON_parse (jsonInput st)) as [parsed|msg]; simpl; [|eauto].
  destruct (malformed parsed) as [[|]|e]; simpl; eauto.
Qed.

(** C6: on a text that is empty or white space only the effect leaves no
    schema and no error; on any other text that [JSON.parse] rejects it
    leaves no schema and the parser's message, which is not empty, as the
    error. *)
Theorem blank_or_unparseable_text (st : State) :
  (whitespaceOnly (jsonInput st) = true ->
   formSchema (store (useEffect_jsonInput st)) = None
   /\ jsonError (store (useEffect_jsonInput st)) = None)
  /\ (forall message,
        whitespaceOnly (jsonInput st) = false ->
        JSON_parse (jsonInput st) = inr message ->
        formSchema (store (useEffect_jsonInput st)) = None
        /\ jsonError (store (useEffect_jsonInput st)) = Some message
        /\ message <> "").
Proof.
  split.
  - intros Hblank. run. rewrite trim_truthy, Hblank. simpl. split; reflexivity.
  - intros message Htext Hparse. run. rewrite trim_truthy, Htext, Hparse. simpl.
    repeat split. exact (JSON_parse_message _ _ Hparse).
Qed.

(** C2, amended: on a text that is not blank and that parses to a value
    other than null, the effect stores the parsed value as the schema and
    clears the error exactly when the value's formTitle member is truthy and
    its fields member is an array; otherwise it leaves no schema and the
    error is the code's fixed message, which names the two members. *)
Theorem schema_shape_check (st : State) (parsed : JSValue) :
  whitespaceOnly (jsonInput st) = false ->
  JSON_parse (jsonInput st) = inl parsed ->
  parsed <> JNull ->
  (formSchema (store (useEffect_jsonInput st)) = Some (as_FormSchema parsed)
   /\ jsonError (store (useEffect_jsonInput st)) = None
   <-> wellShaped parsed = true)
  /\ (wellShaped parsed = false ->
      formSchema (store (useEffect_jsonInput st)) = None
      /\ jsonError (store (useEffect_jsonInput st)) = Some invalidSchemaFormat).
Proof.
  intros Htext Hparse Hnull. run.
  rewrite trim_truthy, Htext, Hparse. simpl.
  rewrite (malformed_wellShaped parsed Hnull).
  destruct (wellShaped parsed); simpl.
  - split; [split; [reflexivity|intros _; split; reflexivity]|discriminate].
  - split; [split; [intros [H _]; discriminate|discriminate]|intros _; split; reflexivity].
Qed.

(** C9: when an edit of the schema text parses to a well shaped value, the
    edit and its effect write the text, the new schema and the cleared
    schema error, and nothing else: the value mapping, the error mapping and
    the two submission flags are those of before, so every entry keyed by
    an id of the old schema is still there. *)
Theorem schema_replacement_frame (st : State) (newText : string) (parsed : JSValue) :
  whitespaceOnly newText = false ->
  JSON_parse newText = inl parsed ->
  wellShaped parsed = true ->
  editSchemaText newText st
  = mkOutcome (Normal tt)
      (mkState newText (Some (as_FormSchema parsed)) None (formData st) (formErrors st)
         (isSubmitted st) (isSubmitting st)) []
  /\ forall id,
       formData (store (editSchemaText newText st)) !! id = formData st !! id
       /\ formErrors (store (editSchemaText newText st)) !! id = formErrors st !! id.
Proof.
  intros Htext Hparse Hshape.
  assert (Hnull : parsed <> JNull) by (intros ->; discriminate).
  assert (Hrun : editSchemaText newText st
    = mkOutcome (Normal tt)
        (mkState newText (Some (as_FormSchema parsed)) None (formData st) (formErrors st)
           (isSubmitted st) (isSubmitting st)) []).
  { run. rewrite trim_truthy, Htext, Hparse. simpl.
    rewrite (malformed_wellShaped parsed Hnull), Hshape. reflexivity. }
  split; [exact Hrun|]. intros id. rewrite Hrun. split; reflexivity.
Qed.

(** ** Submission *)

Lemma validateField_frame (st : State) (id value : string) :
  trace (validateField id value st) = []
  /\ sameButErrors st (store (validateField id value st)).
Proof.
  run. destruct (findField (formSchema st) id) as [field|]; simpl.
  - destruct (fieldError field value); simpl; repeat split; reflexivity.
  - repeat split; reflexivity.
Qed.

Lemma submitCallback_outcome (render : State) (field : FormField)
    (errors : gmap string string) (st : State) :
  trace (submitCallback render field errors st) = []
  /\ sameButErrors st (store (submitCallback render field errors st))
  /\ forall newErrors,
       completion (submitCallback render field errors st) = Normal newErrors ->
       newErrors
       = if requiredEmpty field (valueOf (formData render) (FormField.id field))
         then <[FormField.id field := "This field is required"]> errors
         else errors.
Proof.
  unfold submitCallback, bind, ret.
  destruct (validateField_frame st (FormField.id field)
              (valueOf (formData render) (FormField.id field))) as [Htrace Hframe].
  destruct (validateField _ _ st) as [[[]|e] st1 tr1]; simpl in *; subst tr1.
  - rewrite requiredEmpty_test. repeat split; try apply Hframe.
    intros newErrors [= <-]. reflexivity.
  - repeat split; try apply Hframe. discriminate.
Qed.

Lemma forEach_submitCallback (render : State) (fields : list FormField) :
  forall (errors : gmap string string) (st : State),
    trace (forEach fields (submitCallback render) errors st) = []
    /\ sameButErrors st (store (forEach fields (submitCallback render) errors st))
    /\ forall newErrors,
         completion (forEach fields (submitCallback render) errors st) = Normal newErrors ->
         newErrors
         = fold_left
             (fun errors field =>
                if requiredEmpty field (valueOf (formData render) (FormField.id field))
                then <[FormField.id field := "This field is required"]> errors
                else errors)
             fields errors.
Proof.
  induction fields as [|field fields IH]; intros errors st; simpl.
  - repeat split. intros newErrors [= <-]. reflexivity.
  - unfold bind.
    destruct (submitCallback_outcome render field errors st) as (Ht & Hf & He).
    destruct (submitCallback render field errors st) as [[errors1|e] st1 tr1];
      simpl in *; subst tr1.
    + rewrite (He errors1 eq_refl).
      destruct (IH (if requiredEmpty field (valueOf (formData render) (FormField.id field))
                    then <[FormField.id field := "This field is required"]> errors
                    else errors) st1) as (IHt & IHf & IHe).
      destruct (forEach fields _ _ st1) as [c st2 tr2]; simpl in *.
      split; [exact IHt|]. split; [|exact IHe].
      unfold sameButErrors in *. intuition congruence.
    + split; [reflexivity|]. split; [exact Hf|discriminate].
Qed.


(** The handler, in terms of the outcome of its loop. *)
Lemma handleSubmit_unfold (st : State) :
  handleSubmit st
  = let o := forEach (schemaFields (formSchema st)) (submitCallback st) ∅
               (mkState (jsonInput st) (formSchema st) (jsonError st) (formData st)
                  (formErrors st) (isSubmitted st) true) in
    match completion o with
    | Normal newErrors =>
        if (size newErrors =? 0)%nat then
          mkOutcome (Normal tt)
            (mkState (jsonInput (store o)) (formSchema (store o)) (jsonError (store o))
               (formData (store o)) (formErrors (store o)) true false)
            (trace o ++ [Wait 1000; ConsoleLog "Form submitted:" (formData st)])
        else
          mkOutcome (Normal tt)
            (mkState (jsonInput (store o)) (formSchema (store o)) (jsonError (store o))
               (formData (store o)) newErrors (isSubmitted (store o)) false)
            (trace o ++ [])
    | Throw e => mkOutcome (Throw e) (store o) (trace o)
    end.
Proof.
  unfold handleSubmit. run.
  destruct (forEach _ _ _ _) as [[newErrors|e] st1 tr1]; simpl; [|reflexivity].
  destruct (size newErrors =? 0)%nat; reflexivity.
Qed.


(** C1, at the input where the code departs from it: the name field has
    minLength 3 and the value "ab".  The submit pass records the minLength
    error for the field and still goes through: the timer runs, the values
    are logged and the submitted flag is set. *)
Theorem submit_with_short_value :
  someRequiredEmpty [Samples.nameField] {["n" := "ab"]} = false
  /\ someRuleViolated [Samples.nameField] {["n" := "ab"]} = true
  /\ handleSubmit Samples.shortName
     = mkOutcome (Normal tt)
         (mkState Samples.nameText (Some (FormSchema.mk "T" None [Samples.nameField])) None
            {["n" := "ab"]} {["n" := "Minimum length is 3"]} true false)
         [Wait 1000; ConsoleLog "Form submitted:" {["n" := "ab"]}].
Proof. repeat split; vm_compute; reflexivity. Qed.

End Properties.

(** * Runs on the reference host *)

Section Runs.
Import Samples.
#[local] Existing Instance referenceHost.

(** ** The sample states are reached from the initial state *)

Lemma shortName_reached :
  store (handleInputChange "n" "ab" (store (editSchemaText nameText initialState)))
  = shortName.
Proof. vm_compute. reflexivity. Qed.

Lemma zip_form_reached :
  store (editSchemaText zipText initialState) = zipForm
  /\ store (handleInputChange "zip" "1234" zipForm) = zipTyped.
Proof. split; vm_compute; reflexivity. Qed.

Lemma code_form_reached (message : option string) :
  message = None \/ message = Some "" \/ message = Some "Five digits" ->
  store (editSchemaText (codeText message) initialState) = codeForm message.
Proof. intros [-> | [-> | ->]]; vm_compute; reflexivity. Qed.

Lemma comment_form_reached :
  store (editSchemaText commentText initialState) = commentForm.
Proof. vm_compute. reflexivity. Qed.

Lemma age_form_reached :
  store (editSchemaText (ageText [mem "min" "5"; mem "max" "7"]) initialState)
  = ready (ageText [mem "min" "5"; mem "max" "7"]) [ageField (Some 5) (Some 7)] ∅ ∅
  /\ store (editSchemaText (ageText []) initialState) = ageForm.
Proof. split; vm_compute; reflexivity. Qed.

(** The end-to-end run of section 8: a required name left empty blocks the
    submission with the required error; with "Alice" it goes through. *)
Lemma required_name_end_to_end :
  let text := schemaText [obj [mem "id" (lit "n"); mem "type" (lit "text");
                               mem "label" (lit "Name"); mem "required" "true"]] in
  let form := store (editSchemaText text initialState) in
  let filled := store (handleInputChange "n" "Alice" form) in
  trace (handleSubmit form) = []
  /\ isSubmitted (store (handleSubmit form)) = false
  /\ formErrors (store (handleSubmit form)) = {["n" := "This field is required"]}
  /\ trace (handleSubmit filled) = [Wait 1000; ConsoleLog "Form submitted:" {["n" := "Alice"]}]
  /\ isSubmitted (store (handleSubmit filled)) = true.
Proof. repeat split; vm_compute; reflexivity. Qed.

(** On the text [null] the error is the host's [TypeError] message. *)
Lemma null_schema_text :
  editSchemaText "null" initialState
  = mkOutcome (Normal tt)
      (mkState "null" None (Some "Cannot read properties of null (reading 'formTitle')")
         ∅ ∅ false false) [].
Proof. vm_compute. reflexivity. Qed.

(** ** Where the statements of the specification fail *)

(** C2 as stated fails: a structure with a title string and a fields
    sequence under the names of the specification is rejected; a structure
    whose formTitle is the number 1 is accepted; and the error of a rejected
    structure is not the sentence the specification quotes. *)
Lemma schema_shape_counterexample :
  JSON_parse titleKeyText = inl titleKeyValue
  /\ hasTitleString titleKeyValue = true
  /\ fieldsIsSequence titleKeyValue = true
  /\ formSchema (store (useEffect_jsonInput (typed titleKeyText))) = None
  /\ jsonError (store (useEffect_jsonInput (typed titleKeyText))) = Some invalidSchemaFormat
  /\ JSON_parse numericTitleText = inl numericTitleValue
  /\ member "formTitle" numericTitleValue = Some (JNum 1)
  /\ formSchema (store (useEffect_jsonInput (typed numericTitleText)))
     = Some (as_FormSchema numericTitleValue)
  /\ jsonError (store (useEffect_jsonInput (typed numericTitleText))) = None
  /\ JSON_parse noTitleText = inl noTitleValue
  /\ jsonError (store (useEffect_jsonInput (typed noTitleText))) = Some invalidSchemaFormat
  /\ invalidSchemaFormat <> specInvalidSchemaFormat.
Proof. repeat split; try (vm_compute; reflexivity). vm_compute. discriminate. Qed.

(** C3 as stated fails: with minLength 5 and maxLength 0 the value "b"
    violates both length rules, the last of them being maxLength, and the
    validator records the minLength message. *)
Lemma zero_maxLength_counterexample :
  designates commentForm "c" commentField
  /\ requiredEmpty commentField "b" = false
  /\ patternWellFormed commentField "b" = true
  /\ violatedRules commentField "b" = ["Minimum length is 5"; "Maximum length is 0"]
  /\ records "c" "Minimum length is 5" commentForm (validateField "c" "b" commentForm)
  /\ ~ records "c" (List.last (violatedRules commentField "b") "") commentForm
         (validateField "c" "b" commentForm).
Proof.
  repeat split; try (vm_compute; reflexivity).
  unfold records. intros H.
  apply (f_equal (fun o => formErrors (store o) !! "c")) in H.
  vm_compute in H. discriminate.
Qed.

(** C7 as stated fails: with the empty string as validation.message, a value
    that fails the pattern gets "Invalid format" and not the message. *)
Lemma empty_message_counterexample :
  designates (codeForm (Some "")) "code" (codeField (Some ""))
  /\ requiredEmpty (codeField (Some "")) "1234" = false
  /\ RegExp_test "^[0-9]{5}$" "1234" = inl false
  /\ minLengthViolated (codeField (Some "")) "1234" = false
  /\ maxLengthViolated (codeField (Some "")) "1234" = false
  /\ records "code" "Invalid format" (codeForm (Some ""))
       (validateField "code" "1234" (codeForm (Some "")))
  /\ ~ records "code" "" (codeForm (Some ""))
         (validateField "code" "1234" (codeForm (Some ""))).
Proof.
  repeat split; try (vm_compute; reflexivity).
  unfold records. intros H.
  apply (f_equal (fun o => formErrors (store o) !! "code")) in H.
  vm_compute in H. discriminate.
Qed.

(** ** Instances of the theorems *)

(** The zip field is required and declares a pattern and both bounds; the
    empty value gets the required error. *)
Lemma required_empty_value_error_witness :
  records "zip" "This field is required" zipForm (validateField "zip" "" zipForm).
Proof.
  apply (required_empty_value_error zipForm "zip" zipField); reflexivity.
Defined.

(** After "1234" the zip field shows the minLength error; "12345" clears
    it. *)
Lemma valid_value_clears_error_witness :
  formErrors zipTyped !! "zip" = Some "Minimum length is 5"
  /\ records "zip" "" zipTyped (validateField "zip" "12345" zipTyped)
  /\ formErrors (store (validateField "zip" "12345" zipTyped)) !! "zip" = Some "".
Proof.
  split; [reflexivity|].
  apply (valid_value_clears_error zipTyped "zip" "12345" zipField); reflexivity.
Defined.

(** No schema at all, and a schema without the id. *)
Lemma validateField_unknown_id_witness :
  validateField "zip" "12345" initialState = mkOutcome (Normal tt) initialState []
  /\ validateField "city" "Paris" zipTyped = mkOutcome (Normal tt) zipTyped [].
Proof.
  split.
  - apply (validateField_unknown_id initialState "zip" "12345"). left. reflexivity.
  - apply (validateField_unknown_id zipTyped "city" "Paris"). right.
    exists (FormSchema.mk "T" None [zipField]). split; [reflexivity|].
    intros field [<- | []]. discriminate.
Defined.

(** The pattern of section 8 and the value "1234": "Invalid format" without
    a message, the message when there is one. *)
Lemma pattern_mismatch_message_witness :
  records "code" "Invalid format" (codeForm None)
    (validateField "code" "1234" (codeForm None))
  /\ records "code" "Five digits" (codeForm (Some "Five digits"))
       (validateField "code" "1234" (codeForm (Some "Five digits"))).
Proof.
  split.
  - apply (pattern_mismatch_message (codeForm None) "code" "1234" "^[0-9]{5}$"
             (codeField None)
             (FormValidation.mk (Some "^[0-9]{5}$") None None None None None));
      reflexivity.
  - apply (pattern_mismatch_message (codeForm (Some "Five digits")) "code" "1234"
             "^[0-9]{5}$" (codeField (Some "Five digits"))
             (FormValidation.mk (Some "^[0-9]{5}$") (Some "Five digits")
                None None None None));
      reflexivity.
Defined.

(** "ab" fails the pattern and minLength 5: the minLength message wins.
    "1234567" fails the pattern and maxLength 5: the maxLength message
    wins. *)
Lemma last_violated_rule_wins_witness :
  records "zip" "Minimum length is 5" zipForm (validateField "zip" "ab" zipForm)
  /\ records "zip" "Maximum length is 5" zipForm (validateField "zip" "1234567" zipForm).
Proof.
  split.
  - change (records "zip" (List.last (violatedRules zipField "ab") "") zipForm
              (validateField "zip" "ab" zipForm)).
    apply (last_violated_rule_wins zipForm "zip" "ab" zipField);
      try reflexivity; simpl; lia.
  - change (records "zip" (List.last (violatedRules zipField "1234567") "") zipForm
              (validateField "zip" "1234567" zipForm)).
    apply (last_violated_rule_wins zipForm "zip" "1234567" zipField);
      try reflexivity; simpl; lia.
Defined.

(** The age field with and without [min] and [max]. *)
Lemma min_max_not_enforced_witness :
  formErrors (store (validateField "age" "ab"
                       (withSchema (Some (FormSchema.mk "T" None [ageField (Some 5) (Some 7)]))
                          ageForm)))
  = formErrors (store (validateField "age" "ab" ageForm)).
Proof.
  refine (proj1 (proj2 (proj2
    (min_max_not_enforced ageForm (Some (FormSchema.mk "T" None [ageField (Some 5) (Some 7)]))
       "age" "ab" _)))).
  simpl. repeat split. repeat constructor.
Defined.

(** A blank text, and a text that is not JSON. *)
Lemma blank_or_unparseable_text_witness :
  (formSchema (store (useEffect_jsonInput (typed blankText))) = None
   /\ jsonError (store (useEffect_jsonInput (typed blankText))) = None)
  /\ (formSchema (store (useEffect_jsonInput (typed brokenText))) = None
      /\ jsonError (store (useEffect_jsonInput (typed brokenText)))
         = Some "Unexpected token in JSON"
      /\ "Unexpected token in JSON" <> "").
Proof.
  split.
  - apply (proj1 (blank_or_unparseable_text (typed blankText))). reflexivity.
  - apply (proj2 (blank_or_unparseable_text (typed brokenText))); reflexivity.
Defined.

(** The text of the name form is accepted, the text without a title is
    not. *)
Lemma schema_shape_check_witness :
  (formSchema (store (useEffect_jsonInput (typed nameText)))
   = Some (FormSchema.mk "T" None [nameField])
   /\ jsonError (store (useEffect_jsonInput (typed nameText))) = None)
  /\ (formSchema (store (useEffect_jsonInput (typed noTitleText))) = None
      /\ jsonError (store (useEffect_jsonInput (typed noTitleText)))
         = Some invalidSchemaFormat).
Proof.
  split.
  - refine (proj2 (proj1 (schema_shape_check (typed nameText)
      (JObj [("formTitle", JStr "T");
             ("fields", JArr [JObj [("id", JStr "n"); ("type", JStr "text");
                                    ("label", JStr "Name");
                                    ("validation", JObj [("minLength", JNum 3)])]])])
      _ _ _)) _); try reflexivity. discriminate.
  - refine (proj2 (schema_shape_check (typed noTitleText) noTitleValue _ _ _) _);
      try reflexivity. discriminate.
Defined.

(** Typing the zip schema over the name form keeps the value and the error
    recorded for the name field. *)
Lemma schema_replacement_frame_witness :
  editSchemaText zipText shortName
  = mkOutcome (Normal tt)
      (ready zipText [zipField] {["n" := "ab"]} {["n" := "Minimum length is 3"]}) []
  /\ formData (store (editSchemaText zipText shortName)) !! "n" = Some "ab"
  /\ formErrors (store (editSchemaText zipText shortName)) !! "n"
     = Some "Minimum length is 3".
Proof.
  assert (H := schema_replacement_frame shortName zipText
    (JObj [("formTitle", JStr "T");
           ("fields", JArr [JObj [("id", JStr "zip"); ("type", JStr "text");
                                  ("label", JStr "Zip"); ("required", JBool true);
                                  ("validation",
                                   JObj [("pattern", JStr "^[0-9]{5}$");
                                         ("minLength", JNum 5);
                                         ("maxLength", JNum 5)])]])])
    eq_refl eq_refl eq_refl).
  destruct H as [Hrun Hkeep]. split; [exact Hrun|]. exact (Hkeep "n").
Defined.

End Runs.

(** * Behaviour of the handlers beyond the statements above *)

Section Behaviours.
Context `{host : Platform}.

(** ** The validator *)

(** The three ways [validateField] ends. *)
Lemma validateField_outcome (st : State) (id value : string) :
  validateField id value st
  = match findField (formSchema st) id with
    | None => mkOutcome (Normal tt) st []
    | Some field =>
        match fieldError field value with
        | Normal error =>
            mkOutcome (Normal tt)
              (mkState (jsonInput st) (formSchema st) (jsonError st) (formData st)
                 (<[id := error]> (formErrors st)) (isSubmitted st) (isSubmitting st)) []
        | Throw thrown => mkOutcome (Throw thrown) st []
        end
    end.
Proof.
  run. destruct (findField (formSchema st) id) as [field|]; [|reflexivity].
  destruct (fieldError field value); reflexivity.
Qed.


Lemma append_nonempty (prefix rest : string) :
  prefix <> "" -> (prefix ++ rest)%string <> "".
Proof. destruct prefix; [congruence|discriminate]. Qed.

(** The messages of the length rules are never empty. *)
Lemma checkMinLength_empty (validation : FormValidation) (value error : string) :
  checkMinLength validation value error = ""
  <-> minLengthFires validation value = false /\ error = "".
Proof.
  unfold checkMinLength, minLengthFires.
  destruct (FormValidation.minLength validation) as [n|]; [|tauto].
  destruct (truthy n && _); [|tauto].
  split; [|intros [H _]; discriminate].
  intros H. exfalso. revert H. apply append_nonempty. discriminate.
Qed.

Lemma checkMaxLength_empty (validation : FormValidation) (value error : string) :
  checkMaxLength validation value error = ""
  <-> maxLengthFires validation value = false /\ error = "".
Proof.
  unfold checkMaxLength, maxLengthFires.
  destruct (FormValidation.maxLength validation) as [n|]; [|tauto].
  destruct (truthy n && _); [|tauto].
  split; [|intros [H _]; discriminate].
  intros H. exfalso. revert H. apply append_nonempty. discriminate.
Qed.

Lemma fieldError_empty_iff (field : FormField) (value error : string) :
  fieldError field value = Normal error ->
  (error = "" <-> someRuleFires field value = false).
Proof.
  unfold fieldError, someRuleFires, requiredFires.
  destruct (truthy (FormField.required field) && negb (truthy value)).
  { intros [= <-]. split; discriminate. }
  destruct (FormField.validation field) as [v|]; [|intros [= <-]; tauto].
  destruct (checkPattern v value "") as [e|] eqn:Hp; [|discriminate].
  intros [= <-]. simpl.
  rewrite checkMaxLength_empty, checkMinLength_empty.
  assert (Hpat : e = "" <-> patternFires v value = false).
  { unfold checkPattern, patternFires in *.
    destruct (FormValidation.pattern v) as [p|]; [|injection Hp as <-; tauto].
    destruct (truthy p); [|injection Hp as <-; tauto].
    destruct (RegExp_test p value) as [[|]|]; [| |discriminate]; simpl in *.
    - injection Hp as <-. tauto.
    - injection Hp as <-.
      destruct (FormValidation.message v) as [[|c m]|]; simpl; split; discriminate. }
  rewrite Hpat.
  destruct (patternFires v value), (minLengthFires v value), (maxLengthFires v value);
    simpl; intuition congruence.
Qed.

(** X1: when the validator returns, the error it has stored under the id is
    the empty string exactly when none of the four tests of lines 89 to 100
    fired for the designated field; every test that fires leaves a non-empty
    message. *)
Theorem recorded_error_empty_iff (st : State) (id value : string) (field : FormField) :
  designates st id field ->
  completion (validateField id value st) = Normal tt ->
  exists error,
    formErrors (store (validateField id value st)) !! id = Some error
    /\ (error = "" <-> someRuleFires field value = false).
Proof.
  unfold designates. intros Hf. rewrite validateField_outcome, Hf.
  destruct (fieldError field value) as [error|] eqn:He; [|discriminate].
  intros _. exists error. split; [apply lookup_insert_eq|].
  exact (fieldError_empty_iff field value error He).
Qed.

(** X2: when the required test does not fire and [RegExp] rejects the
    pattern of the designated field, the validator throws the host's error
    and leaves every cell as it was; [handleInputChange] throws the same
    error after having stored the value. *)
Theorem ill_formed_pattern_throws
    (st : State) (id value pattern message : string)
    (field : FormField) (validation : FormValidation) :
  designates st id field ->
  requiredFires field value = false ->
  FormField.validation field = Some validation ->
  FormValidation.pattern validation = Some pattern ->
  RegExp_test pattern value = inr message ->
  validateField id value st = mkOutcome (Throw (ThrownError message)) st []
  /\ handleInputChange id value st
     = mkOutcome (Throw (ThrownError message))
         (mkState (jsonInput st) (formSchema st) (jsonError st)
            (<[id := value]> (formData st)) (formErrors st)
            (isSubmitted st) (isSubmitting st)) [].
Proof.
  unfold designates, requiredFires. intros Hf Hreq Hv Hp Htest.
  assert (Htruthy : truthy pattern = true).
  { destruct pattern; [|reflexivity]. rewrite RegExp_empty_pattern in Htest. discriminate. }
  assert (He : fieldError field value = Throw (ThrownError message)).
  { unfold fieldError, checkPattern. rewrite Hreq, Hv, Hp, Htruthy, Htest. reflexivity. }
  split.
  - rewrite validateField_outcome, Hf, He. reflexivity.
  - unfold handleInputChange, bind, setFormData, update.
    rewrite validateField_outcome. cbn [formSchema]. rewrite Hf, He. reflexivity.
Qed.

(** ** Changing a value *)

(** X3: [handleInputChange] stores the value under the id, so that
    [formData[id] || ''] reads it back, and touches no other value, no error
    of another id, and no other cell; it has no effect outside the
    component.  This holds also when the validator throws. *)
Theorem input_change_stores_value (st : State) (id value : string) :
  formData (store (handleInputChange id value st)) = <[id := value]> (formData st)
  /\ valueOf (formData (store (handleInputChange id value st))) id = value
  /\ (forall other, other <> id ->
        formData (store (handleInputChange id value st)) !! other = formData st !! other
        /\ formErrors (store (handleInputChange id value st)) !! other
           = formErrors st !! other)
  /\ jsonInput (store (handleInputChange id value st)) = jsonInput st
  /\ formSchema (store (handleInputChange id value st)) = formSchema st
  /\ jsonError (store (handleInputChange id value st)) = jsonError st
  /\ isSubmitted (store (handleInputChange id value st)) = isSubmitted st
  /\ isSubmitting (store (handleInputChange id value st)) = isSubmitting st
  /\ trace (handleInputChange id value st) = [].
Proof.
  assert (Hdata : formData (store (handleInputChange id value st))
                  = <[id := value]> (formData st)
          /\ (forall other, other <> id ->
                formErrors (store (handleInputChange id value st)) !! other
                = formErrors st !! other)
          /\ jsonInput (store (handleInputChange id value st)) = jsonInput st
          /\ formSchema (store (handleInputChange id value st)) = formSchema st
          /\ jsonError (store (handleInputChange id value st)) = jsonError st
          /\ isSubmitted (store (handleInputChange id value st)) = isSubmitted st
          /\ isSubmitting (store (handleInputChange id value st)) = isSubmitting st
          /\ trace (handleInputChange id value st) = []).
  { unfold handleInputChange, bind, setFormData, update.
    rewrite validateField_outcome. cbn [formSchema].
    destruct (findField (formSchema st) id) as [field|]; [|repeat split].
    destruct (fieldError field value); cbn; repeat split.
    intros other Hne. apply lookup_insert_ne. congruence. }
  destruct Hdata as (Hd & He & Hrest). split; [exact Hd|]. split.
  - rewrite Hd. unfold valueOf. rewrite lookup_insert_eq.
    destruct value; reflexivity.
  - split; [|exact Hrest]. intros other Hne. split; [|exact (He other Hne)].
    rewrite Hd. apply lookup_insert_ne. congruence.
Qed.

(** ** The submit pass *)











(** X7: whatever the schema and the values, [handleSubmit] writes no cell
    but the error mapping and the two flags, logs at most once and then the
    values held when the submit began, and never takes the submitted flag
    back. *)
Theorem submit_frame (st : State) :
  jsonInput (store (handleSubmit st)) = jsonInput st
  /\ formSchema (store (handleSubmit st)) = formSchema st
  /\ jsonError (store (handleSubmit st)) = jsonError st
  /\ formData (store (handleSubmit st)) = formData st
  /\ (trace (handleSubmit st) = []
      \/ trace (handleSubmit st) = [Wait 1000; ConsoleLog "Form submitted:" (formData st)])
  /\ (isSubmitted (store (handleSubmit st)) = true
      \/ isSubmitted (store (handleSubmit st)) = isSubmitted st).
Proof.
  rewrite handleSubmit_unfold. cbv zeta.
  match goal with |- context [forEach ?l ?b ?e ?s] =>
    destruct (forEach_submitCallback st l e s) as (Htrace & Hframe & _);
    destruct (forEach l b e s) as [[newErrors|err] st1 tr1]
  end; cbn [completion store trace] in *; subst tr1;
    destruct Hframe as (H1 & H2 & H3 & H4 & H5 & _); cbn in H1, H2, H3, H4, H5.
  - destruct (size newErrors =? 0)%nat; cbn; auto 10.
  - cbn. auto 10.
Qed.

(** X8: when [handleSubmit] throws (an ill-formed pattern met by the pass),
    the handler is left before line 130: [isSubmitting] stays true, so the
    button stays disabled, and nothing is submitted or logged. *)
Theorem submit_throw_leaves_submitting (st : State) (thrown : Thrown) :
  completion (handleSubmit st) = Throw thrown ->
  isSubmitting (store (handleSubmit st)) = true
  /\ isSubmitted (store (handleSubmit st)) = isSubmitted st
  /\ trace (handleSubmit st) = [].
Proof.
  rewrite handleSubmit_unfold. cbv zeta.
  match goal with |- context [forEach ?l ?b ?e ?s] =>
    destruct (forEach_submitCallback st l e s) as (Htrace & Hframe & _);
    destruct (forEach l b e s) as [[newErrors|err] st1 tr1]
  end; cbn [completion store trace] in *; subst tr1.
  - destruct (size newErrors =? 0)%nat; discriminate.
  - intros _. destruct Hframe as (_ & _ & _ & _ & H5 & H6). cbn in H5, H6. auto.
Qed.

(** ** The effect and the editor *)

(** The effect as a function of the text. *)
Lemma useEffect_jsonInput_outcome (st : State) :
  useEffect_jsonInput st
  = mkOutcome (Normal tt)
      (mkState (jsonInput st)
         (formSchema (store (useEffect_jsonInput (mkState (jsonInput st) None None ∅ ∅
                                                    false false))))
         (jsonError (store (useEffect_jsonInput (mkState (jsonInput st) None None ∅ ∅
                                                   false false))))
         (formData st) (formErrors st) (isSubmitted st) (isSubmitting st)) [].
Proof.
  run. destruct (truthy (trim (jsonInput st))); cbn; [|reflexivity].
  destruct (JSON_parse (jsonInput st)) as [parsed|msg]; cbn; [|reflexivity].
  destruct (malformed parsed) as [[|]|e]; reflexivity.
Qed.

Lemma editSchemaText_outcome (st : State) (newText : string) :
  editSchemaText newText st
  = useEffect_jsonInput
      (mkState newText (formSchema st) (jsonError st) (formData st) (formErrors st)
         (isSubmitted st) (isSubmitting st)).
Proof.
  unfold editSchemaText, bind, setJsonInput, update.
  destruct (useEffect_jsonInput _) as [[[]|e] st1 tr1]; reflexivity.
Qed.

(** X9: after the effect, a schema and a schema error are never both
    present: on a blank text neither is, on any other text exactly one
    is. *)
Theorem schema_or_error (st : State) :
  if whitespaceOnly (jsonInput st)
  then formSchema (store (useEffect_jsonInput st)) = None
       /\ jsonError (store (useEffect_jsonInput st)) = None
  else (formSchema (store (useEffect_jsonInput st)) <> None
        /\ jsonError (store (useEffect_jsonInput st)) = None)
       \/ (formSchema (store (useEffect_jsonInput st)) = None
           /\ jsonError (store (useEffect_jsonInput st)) <> None).
Proof.
  run. rewrite trim_truthy.
  destruct (whitespaceOnly (jsonInput st)); cbn; [split; reflexivity|].
  destruct (JSON_parse (jsonInput st)) as [parsed|msg]; cbn;
    [|right; split; [reflexivity|discriminate]].
  destruct (malformed parsed) as [[|]|e]; cbn;
    [right|left|right]; split; try reflexivity; discriminate.
Qed.

(** X10: when the text parses to null, reading [formTitle] throws inside
    the try block and the error shown is the host's [TypeError] message,
    not the message about the schema format. *)
Theorem null_text_type_error (st : State) :
  whitespaceOnly (jsonInput st) = false ->
  JSON_parse (jsonInput st) = inl JNull ->
  formSchema (store (useEffect_jsonInput st)) = None
  /\ jsonError (store (useEffect_jsonInput st)) = Some (TypeError_null_read "formTitle").
Proof.
  intros Htext Hparse. run. rewrite trim_truthy, Htext, Hparse. cbn. split; reflexivity.
Qed.

Lemma effect_twice (st : State) :
  useEffect_jsonInput (store (useEffect_jsonInput st)) = useEffect_jsonInput st.
Proof.
  rewrite (useEffect_jsonInput_outcome st). cbn [store].
  rewrite useEffect_jsonInput_outcome. reflexivity.
Qed.

(** ** Sessions *)

Lemma handleInputChange_cells (st : State) (id value : string) :
  formData (store (handleInputChange id value st)) = <[id := value]> (formData st)
  /\ jsonInput (store (handleInputChange id value st)) = jsonInput st
  /\ isSubmitted (store (handleInputChange id value st)) = isSubmitted st.
Proof.
  unfold handleInputChange, bind, setFormData, update.
  rewrite validateField_outcome. cbn [formSchema].
  destruct (findField (formSchema st) id) as [field|]; [|repeat split].
  destruct (fieldError field value); repeat split.
Qed.

Lemma handleSubmit_cells (st : State) :
  formData (store (handleSubmit st)) = formData st
  /\ jsonInput (store (handleSubmit st)) = jsonInput st
  /\ (isSubmitted st = true -> isSubmitted (store (handleSubmit st)) = true).
Proof.
  rewrite handleSubmit_unfold. cbv zeta.
  match goal with |- context [forEach ?l ?b ?e ?s] =>
    destruct (forEach_submitCallback st l e s) as (_ & Hframe & _);
    destruct (forEach l b e s) as [[newErrors|err] st1 tr1]
  end; cbn [completion store trace] in *;
    destruct Hframe as (H1 & _ & _ & H4 & H5 & _); cbn in H1, H4, H5.
  - destruct (size newErrors =? 0)%nat; cbn; repeat split; congruence.
  - cbn. repeat split; congruence.
Qed.

Lemma handle_frame (e : Event) (st : State) :
  (isSubmitted st = true -> isSubmitted (store (handle e st)) = true)
  /\ formData (store (handle e st))
     = match e with
       | ChangeValue id value => <[id := value]> (formData st)
       | _ => formData st
       end
  /\ jsonInput (store (handle e st))
     = match e with
       | EditSchema newText => newText
       | _ => jsonInput st
       end.
Proof.
  destruct e as [newText|id value|]; cbn [handle].
  - rewrite editSchemaText_outcome, useEffect_jsonInput_outcome. cbn. auto.
  - destruct (handleInputChange_cells st id value) as (Hd & Hi & Hs).
    rewrite Hd, Hi, Hs. auto.
  - destruct (handleSubmit_cells st) as (Hd & Hi & Hs).
    rewrite Hd, Hi. auto.
Qed.

(** X11: nothing takes the submitted flag back: once a submission has gone
    through, the flag, and with it the success banner, stays through every
    later edit of the schema, change of a value and submit. *)
Theorem submitted_flag_stays (events : list Event) (st : State) :
  isSubmitted st = true ->
  isSubmitted (session events st) = true.
Proof.
  revert st. induction events as [|e events IH]; intros st H; [exact H|].
  cbn [session]. apply IH. exact (proj1 (handle_frame e st) H).
Qed.

(** X12: through a whole session the value mapping is what was typed, the
    later value over the earlier under each id, and the text is the last one
    typed in the editor: no edit of the schema and no submit, successful or
    not, clears or changes a value. *)
Theorem session_values (events : list Event) (st : State) :
  formData (session events st) = typedValues events (formData st)
  /\ jsonInput (session events st) = lastText events (jsonInput st).
Proof.
  unfold typedValues, lastText. revert st.
  induction events as [|e events IH]; intros st; [split; reflexivity|].
  cbn [session fold_left]. destruct (handle_frame e st) as (_ & Hd & Hi).
  rewrite <- Hd, <- Hi. apply IH.
Qed.

Lemma handle_inSync (e : Event) (st : State) :
  inSync st -> inSync (store (handle e st)).
Proof.
  unfold inSync. intros [Hs He].
  destruct e as [newText|id value|]; cbn [handle].
  - rewrite editSchemaText_outcome, effect_twice. split; reflexivity.
  - rewrite (useEffect_jsonInput_outcome (store _)), (useEffect_jsonInput_outcome st) in *.
    cbn [store formSchema jsonError] in *.
    destruct (handleInputChange_cells st id value) as (_ & Hi & _). rewrite Hi.
    rewrite <- Hs, <- He.
    unfold handleInputChange, bind, setFormData, update.
    rewrite validateField_outcome. cbn [formSchema].
    destruct (findField (formSchema st) id) as [field|]; [|split; reflexivity].
    destruct (fieldError field value); split; reflexivity.
  - rewrite (useEffect_jsonInput_outcome (store _)), (useEffect_jsonInput_outcome st) in *.
    cbn [store formSchema jsonError] in *.
    destruct (handleSubmit_cells st) as (_ & Hi & _). rewrite Hi.
    rewrite <- Hs, <- He.
    rewrite handleSubmit_unfold. cbv zeta.
    match goal with |- context [forEach ?l ?b ?e ?s] =>
      destruct (forEach_submitCallback st l e s) as (_ & Hframe & _);
      destruct (forEach l b e s) as [[newErrors|err] st1 tr1]
    end; cbn [completion store trace] in *;
      destruct Hframe as (_ & H2 & H3 & _); cbn in H2, H3.
    + destruct (size newErrors =? 0)%nat; cbn; split; congruence.
    + cbn. split; congruence.
Qed.

(** X13: from the initial state on, after every event, the schema and the
    schema error are those of the text now in the editor: what the form
    panel shows never lags behind or runs ahead of the editor. *)
Theorem schema_follows_text (events : list Event) :
  inSync (session events initialState).
Proof.
  assert (H : forall st, inSync st -> inSync (session events st)).
  { induction events as [|e events IH]; intros st Hst; [exact Hst|].
    cbn [session]. apply IH, handle_inSync, Hst. }
  apply H. unfold inSync. rewrite useEffect_jsonInput_outcome. cbn.
  split; vm_compute; reflexivity.
Qed.

End Behaviours.

(** * What is shown after a handler has run *)

Section Rendering.
Context `{host : Platform}.

(** X14: after [handleInputChange] for the id of a field, the next render
    shows the value in the field's widget: the [value] prop of a select, a
    textarea or an input is the value, and a radio input is checked exactly
    when its option has that value.  This holds also when validation
    throws. *)
Theorem widget_shows_typed_value (st : State) (field : FormField) (value : string) :
  (FormField.type field <> radio ->
   prop "value" (renderWidget (store (handleInputChange (FormField.id field) value st))
                   field)
   = PString value)
  /\ forall option,
       prop "checked" (radioInput (store (handleInputChange (FormField.id field) value st))
                         field option)
       = PBoolean (String.eqb value (FormOption.value option)).
Proof.
  destruct (handleInputChange_cells st (FormField.id field) value) as (Hd & _).
  split.
  - intros Hradio. unfold renderWidget. rewrite Hd.
    assert (Hv : valueOf (<[FormField.id field := value]> (formData st))
                   (FormField.id field) = value).
    { unfold valueOf. rewrite lookup_insert_eq. destruct value; reflexivity. }
    destruct (FormField.type field); try congruence; cbn; rewrite Hv; reflexivity.
  - intros option.
    change (PBoolean (isChecked (store (handleInputChange (FormField.id field) value st))
                        field option)
            = PBoolean (String.eqb value (FormOption.value option))).
    unfold isChecked. rewrite Hd, lookup_insert_eq. reflexivity.
Qed.

(** X15: when the values of a radio field's options are pairwise distinct,
    at most one of the rendered radio inputs is checked. *)
Theorem radio_at_most_one_checked (st : State) (field : FormField)
    (options : list FormOption) :
  List.NoDup (List.map FormOption.value options) ->
  (List.length
     (List.filter
        (fun input => match prop "checked" input with
                      | PBoolean true => true
                      | _ => false
                      end)
        (List.map (radioInput st field) options)) <= 1)%nat.
Proof.
  unfold radioInput, isChecked. cbn.
  destruct (formData st !! FormField.id field) as [v|].
  - induction options as [|o options IH]; cbn; [lia|].
    intros Hnd. apply List.NoDup_cons_iff in Hnd as [Hnotin Hnd].
    destruct (String.eqb_spec v (FormOption.value o)) as [->|Hne]; [|exact (IH Hnd)].
    cbn. clear IH Hnd.
    assert (Hnone : List.filter
              (fun input => match prop "checked" input with
                            | PBoolean true => true
                            | _ => false
                            end)
              (List.map
                 (fun option =>
                    Elem "input" None
                      [("type", PString "radio");
                       ("name", PString (FormField.id field));
                       ("value", PString (FormOption.value option));
                       ("checked",
                        PBoolean (String.eqb (FormOption.value o) (FormOption.value option)));
                       ("onChange", PListener (OnFieldChange (FormField.id field)));
                       ("className", PString "focus:ring-2 focus:ring-blue-500");
                       ("required", optionalProp PBoolean (FormField.required field))]
                      [])
                 options) = []).
    { induction options as [|p options IH]; [reflexivity|]. cbn in *.
      destruct (String.eqb_spec (FormOption.value o) (FormOption.value p)) as [Heq|Hne].
      - exfalso. apply Hnotin. left. congruence.
      - apply IH. intros Hin. apply Hnotin. right. exact Hin. }
    rewrite Hnone. cbn. lia.
  - intros _. induction options as [|o options IH]; cbn; [lia|exact IH].
Qed.

(** X16: after the validator has returned for the id of the field it
    designates, the next render shows an error paragraph under the field
    exactly when one of the tests of lines 89 to 100 fired, and the
    paragraph then holds the recorded message. *)
Theorem error_shown_iff_rule_fires (st : State) (field : FormField) (value : string) :
  designates st (FormField.id field) field ->
  completion (validateField (FormField.id field) value st) = Normal tt ->
  exists error,
    fieldError field value = Normal error
    /\ renderError (store (validateField (FormField.id field) value st)) field
       = (if someRuleFires field value
          then [Elem "p" None [("className", PString "text-sm text-red-500")] [Text error]]
          else []).
Proof.
  unfold designates. intros Hf. rewrite validateField_outcome, Hf.
  destruct (fieldError field value) as [error|] eqn:He; [|discriminate].
  intros _. exists error. split; [reflexivity|].
  unfold renderError. cbn [store formErrors]. rewrite lookup_insert_eq.
  pose proof (fieldError_empty_iff field value error He) as Hiff.
  unfold when, textChild. destruct error as [|c error]; cbn.
  - rewrite (proj1 Hiff eq_refl). reflexivity.
  - destruct (someRuleFires field value); [reflexivity|].
    exfalso. assert (H : String c error = "") by (apply Hiff; reflexivity). discriminate.
Qed.

(** X17: after [handleSubmit] has returned, the button is enabled again and
    reads Submit; after it has thrown, the button is disabled and reads
    Submitting... *)
Theorem button_after_submit (st : State) :
  renderButton (store (handleSubmit st))
  = Elem "button" None
      [("type", PString "submit");
       ("disabled", PBoolean (match completion (handleSubmit st) with
                              | Normal _ => false
                              | Throw _ => true
                              end));
       ("className", PString "w-full bg-blue-500 text-white py-2 px-4 rounded hover:bg-blue-600 disabled:opacity-50")]
      [Text (match completion (handleSubmit st) with
             | Normal _ => "Submit"
             | Throw _ => "Submitting..."
             end)].
Proof.
  unfold renderButton. rewrite handleSubmit_unfold. cbv zeta.
  match goal with |- context [forEach ?l ?b ?e ?s] =>
    destruct (forEach_submitCallback st l e s) as (_ & Hframe & _);
    destruct (forEach l b e s) as [[newErrors|err] st1 tr1]
  end; cbn [completion store trace] in *.
  - destruct (size newErrors =? 0)%nat; reflexivity.
  - destruct Hframe as (_ & _ & _ & _ & _ & H6). cbn in H6. rewrite H6. reflexivity.
Qed.

(** X18: the example that the editor shows as its placeholder (lines
    145-155) is not a schema the component accepts: it names its title
    [title], so typing it gives the schema format error and no form. *)
Theorem placeholder_is_rejected (st : State) :
  JSON_parse schemaPlaceholder = inl placeholderValue ->
  prop "placeholder" (nth 1 (childrenOf (renderEditor st)) (Text "")) = PString schemaPlaceholder
  /\ formSchema (store (editSchemaText schemaPlaceholder st)) = None
  /\ jsonError (store (editSchemaText schemaPlaceholder st)) = Some invalidSchemaFormat.
Proof.
  intros Hparse. split; [reflexivity|].
  rewrite editSchemaText_outcome.
  assert (Hblank : whitespaceOnly schemaPlaceholder = false) by (vm_compute; reflexivity).
  run. rewrite trim_truthy, Hblank, Hparse. cbn. split; reflexivity.
Qed.

End Rendering.

(** * More runs on the reference host *)

Section MoreRuns.
Import Samples Cases.
#[local] Existing Instance referenceHost.

Lemma unclosed_form_reached :
  store (editSchemaText unclosedText initialState) = unclosedForm
  /\ store (handleInputChange "b" "x" unclosedForm) = unclosedTyped.
Proof. split; vm_compute; reflexivity. Qed.

Lemma zipAndName_reached :
  store (handleInputChange "n" "ab" (store (editSchemaText zipAndNameText initialState)))
  = zipAndName.
Proof. vm_compute. reflexivity. Qed.

(** "12345" fires no test of the zip field, "12" fires two. *)
Lemma recorded_error_empty_iff_witness :
  (exists error,
     formErrors (store (validateField "zip" "12345" zipForm)) !! "zip" = Some error
     /\ (error = "" <-> someRuleFires zipField "12345" = false))
  /\ (exists error,
        formErrors (store (validateField "zip" "12" zipForm)) !! "zip" = Some error
        /\ (error = "" <-> someRuleFires zipField "12" = false)).
Proof.
  split.
  - apply (recorded_error_empty_iff zipForm "zip" "12345" zipField); reflexivity.
  - apply (recorded_error_empty_iff zipForm "zip" "12" zipField); reflexivity.
Defined.

Lemma ill_formed_pattern_throws_witness :
  validateField "b" "x" unclosedForm
  = mkOutcome (Throw (ThrownError "Invalid regular expression")) unclosedForm []
  /\ handleInputChange "b" "x" unclosedForm
     = mkOutcome (Throw (ThrownError "Invalid regular expression")) unclosedTyped [].
Proof.
  apply (ill_formed_pattern_throws unclosedForm "b" "x" "[0-9" "Invalid regular expression"
           unclosedField
           (FormValidation.mk (Some "[0-9") None None None None None));
    reflexivity.
Defined.




Lemma submit_throw_leaves_submitting_witness :
  isSubmitting (store (handleSubmit unclosedTyped)) = true
  /\ isSubmitted (store (handleSubmit unclosedTyped)) = isSubmitted unclosedTyped
  /\ trace (handleSubmit unclosedTyped) = [].
Proof.
  apply (submit_throw_leaves_submitting unclosedTyped
           (ThrownError "Invalid regular expression")).
  reflexivity.
Defined.

Lemma null_text_type_error_witness :
  formSchema (store (useEffect_jsonInput (typed "null"))) = None
  /\ jsonError (store (useEffect_jsonInput (typed "null")))
     = Some "Cannot read properties of null (reading 'formTitle')".
Proof.
  refine (null_text_type_error (typed "null") _ _); reflexivity.
Defined.

Lemma submitted_flag_stays_witness :
  isSubmitted (session laterEvents (store (handleSubmit shortName))) = true.
Proof.
  apply (submitted_flag_stays laterEvents (store (handleSubmit shortName))).
  reflexivity.
Defined.

Lemma widget_shows_typed_value_witness :
  prop "value" (renderWidget (store (handleInputChange "zip" "12345" zipForm)) zipField)
  = PString "12345"
  /\ prop "checked"
       (radioInput (store (handleInputChange "colour" "g" initialState)) colourField
          (FormOption.mk "g" "Green"))
     = PBoolean true.
Proof.
  split.
  - apply (proj1 (widget_shows_typed_value zipForm zipField "12345")). discriminate.
  - exact (proj2 (widget_shows_typed_value initialState colourField "g")
             (FormOption.mk "g" "Green")).
Defined.

Lemma radio_at_most_one_checked_witness :
  (List.length
     (List.filter
        (fun input => match prop "checked" input with
                      | PBoolean true => true
                      | _ => false
                      end)
        (List.map (radioInput (store (handleInputChange "colour" "g" initialState))
                     colourField) colours)) <= 1)%nat.
Proof.
  apply (radio_at_most_one_checked
           (store (handleInputChange "colour" "g" initialState)) colourField colours).
  repeat constructor; simpl; intuition discriminate.
Defined.

Lemma error_shown_iff_rule_fires_witness :
  exists error,
    fieldError zipField "12" = Normal error
    /\ renderError (store (validateField "zip" "12" zipForm)) zipField
       = [Elem "p" None [("className", PString "text-sm text-red-500")] [Text error]].
Proof.
  refine (error_shown_iff_rule_fires zipForm zipField "12" _ _); reflexivity.
Defined.

Lemma placeholder_is_rejected_witness :
  prop "placeholder" (nth 1 (childrenOf (renderEditor initialState)) (Text ""))
  = PString schemaPlaceholder
  /\ formSchema (store (editSchemaText schemaPlaceholder initialState)) = None
  /\ jsonError (store (editSchemaText schemaPlaceholder initialState))
     = Some invalidSchemaFormat.
Proof.
  apply (placeholder_is_rejected initialState). vm_compute. reflexivity.
Defined.

End MoreRuns.
